(** * Cluster credential resolution and remote streaming execution

    A shallow embedding of [controllers/attestation_controller_command.go]
    (package [controllers]): [GetClusterClientConfig],
    [GetClientsetFromClusterConfig], [GetClusterClientset], [GetRESTClient]
    and [PodList].

    The Go functions call into client-go, the Go standard library and the
    process environment.  Those collaborators are gathered in a record
    [World] of oracles; every call to one of them is recorded, in program
    order, in a trace of [event]s, so that statements such as "the file
    fallback is never attempted" are statements about the trace. *)

From Stdlib Require Import Strings.Ascii.
From stdpp Require Import base strings list gmap.

Local Open Scope string_scope.

(** ** Go values *)

(** A Go [error] value, observed through its [Error()] method.  A nil
    [error] interface is [None] in [option error]. *)
Record error := errorString { Error : string }.

(** [rest.Config]: only the fields that identify a connection are kept. *)
Record Config := mkConfig {
  Host : string;
  APIPath : string;
  BearerToken : string;
}.

(** [rest.RESTClient]; [&rest.RESTClient{}] is the zero value below. *)
Record RESTClient := mkRESTClient {
  base : option string;
  versionedAPIPath : string;
}.

Definition RESTClient_zero : RESTClient :=
  {| base := None; versionedAPIPath := "" |}.

(** [kubernetes.Clientset], reduced to the REST client of its CoreV1 group. *)
Record Clientset := mkClientset { coreV1 : RESTClient }.

(** [rest.Request] as assembled by the builder calls of [PodList]. *)
Record Request := mkRequest {
  c : RESTClient;
  verb : string;
  resource : string;
  namespace : string;
  namespaceSet : bool;
}.

(** [runtime.Scheme]: the kinds registered so far. *)
Definition Scheme := list string.

(** [remotecommand.Executor]: the value built by [NewSPDYExecutor]. *)
Record Executor := mkExecutor {
  ex_config : option Config;
  ex_method : string;
  ex_url : string;
}.

(** [context.Context].  [context.Background()] has no cancellation signal;
    a context derived with [context.WithCancel] carries one. *)
Inductive Context :=
| Background
| WithCancel (parent : Context) (cancelled : bool).

Definition context_Canceled : error := errorString "context canceled".

(** [ctx.Err()]. *)
Fixpoint Context_Err (ctx : Context) : option error :=
  match ctx with
  | Background => None
  | WithCancel parent cancelled =>
      if cancelled then Some context_Canceled else Context_Err parent
  end.

(** An [io.Reader] is modelled by the bytes it yields; [bytes.Buffer] by the
    bytes written to it so far. *)
Definition Reader := string.
Definition Buffer := string.
Definition Buffer_Write (b : Buffer) (p : string) : Buffer := b +:+ p.
Definition Buffer_String (b : Buffer) : string := b.

(** The remote side of an exec session sends frames, each on one channel. *)
Inductive channel := Stdout | Stderr.
Definition frame : Type := channel * string.

(** ** fmt *)

(** The [%v] and [%+v] verbs applied to an [error] operand call [Error()];
    applied to a nil interface they print [<nil>]. *)
Definition fmt_v (arg : option error) : string :=
  match arg with
  | Some e => Error e
  | None => "<nil>"
  end.

Definition fmt_arg (a : list (option error)) : string :=
  match a with
  | arg :: _ => fmt_v arg
  | [] => "%!v(MISSING)"
  end.

(** [fmt.Sprintf] for formats whose verbs are [%v] and [%+v]. *)
Fixpoint Sprintf (format : string) (a : list (option error)) : string :=
  match format with
  | "" => ""
  | String ch rest =>
      if Ascii.eqb ch "%"%char then
        match rest with
        | String v rest' =>
            if Ascii.eqb v "v"%char then fmt_arg a +:+ Sprintf rest' (tail a)
            else if Ascii.eqb v "+"%char then
              match rest' with
              | String v' rest'' =>
                  if Ascii.eqb v' "v"%char
                  then fmt_arg a +:+ Sprintf rest'' (tail a)
                  else String ch (String v (String v' (Sprintf rest'' a)))
              | "" => String ch (String v "")
              end
            else String ch (String v (Sprintf rest' a))
        | "" => String ch ""
        end
      else String ch (Sprintf rest a)
  end.

(** [fmt.Errorf] without a [%w] verb: a fresh error whose text is the
    formatted string. *)
Definition fmt_Errorf (format : string) (a : list (option error)) : error :=
  errorString (Sprintf format a).

(** The Go escape [\n]. *)
Definition nl : string := String "010"%char "".

(** ** path/filepath (Unix) *)

(** Split a path at every separator; [a//b] gives an empty element. *)
Fixpoint split_sep (acc path : string) : list string :=
  match path with
  | "" => [acc]
  | String ch rest =>
      if Ascii.eqb ch "/"%char then acc :: split_sep "" rest
      else split_sep (acc +:+ String ch "") rest
  end.

(** One step of [filepath.Clean] over the elements kept so far, most recent
    first: empty and [.] elements are dropped, [..] removes the last real
    element, or is kept when the path is not rooted and nothing can be
    removed. *)
Definition clean_step (rooted : bool) (out : list string) (el : string)
  : list string :=
  if decide (el = "") then out
  else if decide (el = ".") then out
  else if decide (el = "..") then
    match out with
    | last :: out' =>
        if decide (last = "..") then el :: out else out'
    | [] => if rooted then out else [el]
    end
  else el :: out.

Fixpoint strings_Join (elems : list string) (sep : string) : string :=
  match elems with
  | [] => ""
  | [e] => e
  | e :: es => e +:+ sep +:+ strings_Join es sep
  end.

Definition filepath_Clean (path : string) : string :=
  match path with
  | "" => "."
  | String ch _ =>
      let rooted := Ascii.eqb ch "/"%char in
      let out := rev (foldl (clean_step rooted) [] (split_sep "" path)) in
      if rooted then "/" +:+ strings_Join out "/"
      else match out with
           | [] => "."
           | _ => strings_Join out "/"
           end
  end.

(** [filepath.Join]: leading empty elements are skipped, the rest is joined
    with the separator and cleaned; all elements empty gives the empty
    string. *)
Fixpoint filepath_Join (elem : list string) : string :=
  match elem with
  | [] => ""
  | e :: es =>
      if decide (e = "") then filepath_Join es
      else filepath_Clean (strings_Join elem "/")
  end.

(** [os.Getenv]: the value of the variable, empty when it is not set. *)
Definition os_Getenv_in (env : gmap string string) (key : string) : string :=
  default "" (env !! key).

(** ** The collaborators *)

(** Values attached to a log line. *)
Inductive logval :=
| LogScheme (s : Scheme)
| LogURL (u : string).

(** What the process does that can be seen from outside: each call to a
    collaborator, with its arguments, and each log line. *)
Inductive event :=
| CallInClusterConfig
| CallGetenv (key : string)
| CallBuildConfigFromFlags (masterUrl kubeconfigPath : string)
| CallNewForConfig (config : option Config)
| CallRESTClientFor (config : option Config)
| CallRequest (req : Request)
| CallAddToScheme (s : Scheme)
| CallNewSPDYExecutor (config : option Config) (method url : string)
| CallStreamWithContext (exec : Executor) (ctx : Context)
    (stdin : option Reader) (tty : bool)
| LogInfo (msg : string) (keysAndValues : list (string * logval)).

(** The answers of the collaborators.  A Go result made of a pointer and an
    [error] is a pair of options: each component may be nil independently. *)
Record World := mkWorld {
  environ : gmap string string;
  InClusterConfig : option Config * option error;
  BuildConfigFromFlags : string -> string -> option Config * option error;
  NewForConfig : option Config -> option Clientset * option error;
  RESTClientFor : option Config -> option RESTClient * option error;
  AddToScheme : Scheme -> Scheme * option error;
  RequestURL : Request -> string;
  NewSPDYExecutor :
    option Config -> string -> string -> option Executor * option error;
  StreamWithContext :
    Executor -> Context -> option Reader -> bool -> list frame * option error;
}.

(** ** Computations with a trace *)

(** A Go call either returns or panics (here: a method call through a nil
    interface value). *)
Inductive outcome (A : Type) :=
| Return (a : A)
| Panic (reason : string).
Arguments Return {A} a.
Arguments Panic {A} reason.

Definition M (A : Type) : Type := list event -> outcome A * list event.

#[global] Instance M_ret : MRet M := λ A a tr, (Return a, tr).

#[global] Instance M_bind : MBind M := λ A B f m tr,
  match m tr with
  | (Return a, tr') => f a tr'
  | (Panic reason, tr') => (Panic reason, tr')
  end.

Definition emit {A} (e : event) (a : A) : M A :=
  λ tr, (Return a, (tr ++ [e])%list).

Definition panic {A} (reason : string) : M A := λ tr, (Panic reason, tr).

(** Run a computation from the empty trace. *)
Definition run {A} (m : M A) : outcome A * list event := m [].

Definition result {A} (m : M A) : outcome A := (run m).1.
Definition trace {A} (m : M A) : list event := (run m).2.

(** Modelled from the spec: [GetLogInstance] is declared in another file of
    package [controllers]; structured logging is an external collaborator,
    so [GetLogInstance().Info] only adds a line to the trace. *)
Definition Info (msg : string) (keysAndValues : list (string * logval))
  : M unit :=
  emit (LogInfo msg keysAndValues) ().

(** [Stdout] and [Stderr] of [remotecommand.StreamOptions] are two separate
    buffers; a frame is written to the buffer of its channel. *)
Definition deliver (bufs : Buffer * Buffer) (f : frame) : Buffer * Buffer :=
  match f with
  | (Stdout, p) => (Buffer_Write bufs.1 p, bufs.2)
  | (Stderr, p) => (bufs.1, Buffer_Write bufs.2 p)
  end.

Section Controllers.

Context (w : World).

Definition os_Getenv (key : string) : M string :=
  emit (CallGetenv key) (os_Getenv_in (environ w) key).

Definition rest_InClusterConfig : M (option Config * option error) :=
  emit CallInClusterConfig (InClusterConfig w).

Definition clientcmd_BuildConfigFromFlags (masterUrl kubeconfigPath : string)
  : M (option Config * option error) :=
  emit (CallBuildConfigFromFlags masterUrl kubeconfigPath)
       (BuildConfigFromFlags w masterUrl kubeconfigPath).

Definition kubernetes_NewForConfig (config : option Config)
  : M (option Clientset * option error) :=
  emit (CallNewForConfig config) (NewForConfig w config).

Definition rest_RESTClientFor (config : option Config)
  : M (option RESTClient * option error) :=
  emit (CallRESTClientFor config) (RESTClientFor w config).

Definition core_v1_AddToScheme (s : Scheme) : M (Scheme * option error) :=
  emit (CallAddToScheme s) (AddToScheme w s).

Definition remotecommand_NewSPDYExecutor
  (config : option Config) (method url : string)
  : M (option Executor * option error) :=
  emit (CallNewSPDYExecutor config method url)
       (NewSPDYExecutor w config method url).

(** [clientset.CoreV1().RESTClient().Get().Resource(r).Namespace(ns)]. *)
Definition new_Request (clientset : Clientset) (r ns : string) : M Request :=
  let req := {| c := coreV1 clientset; verb := "GET"; resource := r;
                namespace := ns; namespaceSet := true |} in
  emit (CallRequest req) req.

(** [exec.StreamWithContext(ctx, StreamOptions{Stdin, Stdout, Stderr, Tty})]:
    the frames received are written to the two buffers as they arrive, then
    the session's error, if any, is returned. *)
Definition exec_StreamWithContext (exec : option Executor) (ctx : Context)
  (stdin : option Reader) (stdout stderr : Buffer) (tty : bool)
  : M (Buffer * Buffer * option error) :=
  match exec with
  | None => panic "invalid memory address or nil pointer dereference"
  | Some ex =>
      let '(frames, err) := StreamWithContext w ex ctx stdin tty in
      emit (CallStreamWithContext ex ctx stdin tty)
           (foldl deliver (stdout, stderr) frames, err)
  end.

(** ** The functions of the package *)

Definition GetClusterClientConfig : M (option Config * option error) :=
  '(config, err) ← rest_InClusterConfig;
  match err with
  | Some _ =>
      let err1 := err in
      home ← os_Getenv "HOME";
      let kubeconfig := filepath_Join [home; ".kube"; "config"] in
      '(config, err) ← clientcmd_BuildConfigFromFlags "" kubeconfig;
      match err with
      | Some _ =>
          let err := fmt_Errorf
            ("InClusterConfig as well as BuildConfigFromFlags Failed. " +:+
             "Error in InClusterConfig: %+v" +:+ nl +:+
             "Error in BuildConfigFromFlags: %+v") [err1; err] in
          mret (None, Some err)
      | None => mret (config, None)
      end
  | None => mret (config, None)
  end.

Definition GetClientsetFromClusterConfig (config : option Config)
  : M (option Clientset * option error) :=
  '(clientset, err) ← kubernetes_NewForConfig config;
  match err with
  | Some _ =>
      let err := fmt_Errorf "failed creating clientset. Error: %+v" [err] in
      mret (None, Some err)
  | None => mret (clientset, None)
  end.

Definition GetClusterClientset : M (option Clientset * option error) :=
  '(config, err) ← GetClusterClientConfig;
  match err with
  | Some _ => mret (None, err)
  | None => GetClientsetFromClusterConfig config
  end.

Definition GetRESTClient : M (option RESTClient * option error) :=
  '(config, err) ← GetClusterClientConfig;
  match err with
  | Some _ => mret (Some RESTClient_zero, err)
  | None => rest_RESTClientFor config
  end.

Definition PodList (namespace : string) (stdin : option Reader)
  : M (string * string * option error) :=
  '(config, err) ← GetClusterClientConfig;
  match err with
  | Some _ =>
      Info "Unable to get ClusterClientConfig" [];;
      mret ("", "", err)
  | None =>
  match config with
  | None =>
      Info "Unable to get config" [];;
      let err := fmt_Errorf "nil config" [] in
      mret ("", "", Some err)
  | Some _ =>
  '(clientset, err) ← GetClientsetFromClusterConfig config;
  match err with
  | Some _ =>
      Info "Unable to get ClientSetFromClusterConfig" [];;
      mret ("", "", err)
  | None =>
  match clientset with
  | None =>
      Info "Clientset is null" [];;
      let err := fmt_Errorf "nil clientset" [] in
      mret ("", "", Some err)
  | Some cs =>
  req ← new_Request cs "pods" namespace;
  let scheme : Scheme := [] in
  '(scheme, err') ← core_v1_AddToScheme scheme;
  match err' with
  | Some _ =>
      Info "Unable to add scheme" [("Scheme", LogScheme scheme)];;
      mret ("", "", Some (fmt_Errorf "error adding to scheme: %v" [err']))
  | None =>
  Info "Dumping request" [("URL", LogURL (RequestURL w req))];;
  '(exec, spdyerr) ←
     remotecommand_NewSPDYExecutor config "GET" (RequestURL w req);
  match spdyerr with
  | Some _ =>
      mret ("", "",
            Some (fmt_Errorf "error while creating Executor: %v" [err]))
  | None =>
  let stdout : Buffer := "" in
  let stderr : Buffer := "" in
  '(stdout, stderr, err) ←
     exec_StreamWithContext exec Background stdin stdout stderr false;
  match err with
  | Some _ =>
      mret ("", "", Some (fmt_Errorf "error in Stream: %v" [err]))
  | None => mret (Buffer_String stdout, Buffer_String stderr, None)
  end end end end end end end.

End Controllers.

(** ** Observations on results and traces *)

(** [strings.Contains]. *)
Fixpoint strings_Contains (s substr : string) : bool :=
  String.prefix substr s ||
  match s with
  | "" => false
  | String _ s' => strings_Contains s' substr
  end.

(** [strings.HasPrefix]. *)
Definition strings_HasPrefix (s pre : string) : bool := String.prefix pre s.

(** [path.IsAbs]. *)
Definition filepath_IsAbs (path : string) : bool :=
  strings_HasPrefix path "/".

(** The error classes of [PodList] are told apart by the text each return
    site puts in front of the cause. *)
Definition is_StreamError (e : error) : bool :=
  strings_HasPrefix (Error e) "error in Stream: ".

Definition is_InClusterConfig (e : event) : bool :=
  match e with CallInClusterConfig => true | _ => false end.

Definition is_BuildConfigFromFlags (e : event) : bool :=
  match e with CallBuildConfigFromFlags _ _ => true | _ => false end.

Definition is_RESTClientFor (e : event) : bool :=
  match e with CallRESTClientFor _ => true | _ => false end.

Definition is_Request (e : event) : bool :=
  match e with CallRequest _ => true | _ => false end.

Definition is_AddToScheme (e : event) : bool :=
  match e with CallAddToScheme _ => true | _ => false end.

Definition is_NewSPDYExecutor (e : event) : bool :=
  match e with CallNewSPDYExecutor _ _ _ => true | _ => false end.

Definition is_StreamWithContext (e : event) : bool :=
  match e with CallStreamWithContext _ _ _ _ => true | _ => false end.

(** The session states of the executor that touch the network: upgrade
    negotiation and streaming. *)
Definition is_network (e : event) : bool :=
  is_NewSPDYExecutor e || is_StreamWithContext e.

(** How many events of a trace satisfy [p]. *)
Fixpoint count (p : event -> bool) (tr : list event) : nat :=
  match tr with
  | [] => 0
  | e :: tr' => (if p e then 1 else 0) + count p tr'
  end.

(** The context under which a streaming call was made, for the streaming
    events of a trace. *)
Definition streams_under (ctx : Context) (e : event) : bool :=
  match e with
  | CallStreamWithContext _ ctx' _ _ =>
      match ctx, ctx' with
      | Background, Background => true
      | _, _ => false
      end
  | _ => true
  end.

(** The bytes a list of frames carries on one channel, in arrival order. *)
Fixpoint emitted (ch : channel) (frames : list frame) : string :=
  match frames with
  | [] => ""
  | (Stdout, p) :: fs =>
      match ch with Stdout => p +:+ emitted ch fs | Stderr => emitted ch fs end
  | (Stderr, p) :: fs =>
      match ch with Stderr => p +:+ emitted ch fs | Stdout => emitted ch fs end
  end.

(** The path [GetClusterClientConfig] hands to [BuildConfigFromFlags]. *)
Definition kubeconfig_path (w : World) : string :=
  filepath_Join [os_Getenv_in (environ w) "HOME"; ".kube"; "config"].

(** The request [PodList] builds for a namespace. *)
Definition pods_request (cs : Clientset) (ns : string) : Request :=
  {| c := coreV1 cs; verb := "GET"; resource := "pods";
     namespace := ns; namespaceSet := true |}.

(** What [PodList] adds to the trace between a successful resolution and
    the end of upgrade negotiation. *)
Definition negotiation_trace (w : World) (ns : string)
  (cfg : Config) (cs : Clientset) : list event :=
  [CallNewForConfig (Some cfg); CallRequest (pods_request cs ns);
   CallAddToScheme [];
   LogInfo "Dumping request"
     [("URL", LogURL (RequestURL w (pods_request cs ns)))];
   CallNewSPDYExecutor (Some cfg) "GET" (RequestURL w (pods_request cs ns))].

(** Every step of [PodList] before the streaming call succeeds: a config
    [cfg] is resolved, a clientset [cs] is built from it, the scheme is
    registered and the executor [ex] is created for the request URL. *)
Record stream_ready (w : World) (ns : string)
  (cfg : Config) (cs : Clientset) (ex : Executor) : Prop := {
  ready_config : result (GetClusterClientConfig w) = Return (Some cfg, None);
  ready_clientset : NewForConfig w (Some cfg) = (Some cs, None);
  ready_scheme : (AddToScheme w []).2 = None;
  ready_executor :
    NewSPDYExecutor w (Some cfg) "GET" (RequestURL w (pods_request cs ns))
    = (Some ex, None);
}.

(** Two worlds that differ at most in how a stream behaves under a context
    other than [context.Background()]. *)
Record same_but_cancellable_streams (w w' : World) : Prop := {
  same_environ : environ w = environ w';
  same_InClusterConfig : InClusterConfig w = InClusterConfig w';
  same_BuildConfigFromFlags :
    forall m k, BuildConfigFromFlags w m k = BuildConfigFromFlags w' m k;
  same_NewForConfig : forall cf, NewForConfig w cf = NewForConfig w' cf;
  same_AddToScheme : forall s, AddToScheme w s = AddToScheme w' s;
  same_RequestURL : forall r, RequestURL w r = RequestURL w' r;
  same_NewSPDYExecutor :
    forall cf m u, NewSPDYExecutor w cf m u = NewSPDYExecutor w' cf m u;
  same_Background_stream :
    forall ex sin tty,
      StreamWithContext w ex Background sin tty
      = StreamWithContext w' ex Background sin tty;
}.

(** The text of the error [GetClusterClientConfig] builds when both methods
    fail with [e1] and [e2]. *)
Definition both_failed_text (e1 e2 : error) : string :=
  "InClusterConfig as well as BuildConfigFromFlags Failed. " +:+
  "Error in InClusterConfig: " +:+ Error e1 +:+ nl +:+
  "Error in BuildConfigFromFlags: " +:+ Error e2.

(** The trace of a resolution that falls back to the kubeconfig file. *)
Definition fallback_trace (w : World) : list event :=
  [CallInClusterConfig; CallGetenv "HOME";
   CallBuildConfigFromFlags "" (kubeconfig_path w)].

(** ** Sample worlds *)

Definition sample_config : Config :=
  {| Host := "https://10.96.0.1:443"; APIPath := "/api"; BearerToken := "t" |}.

Definition sample_clientset : Clientset :=
  {| coreV1 := {| base := Some "https://10.96.0.1:443";
                  versionedAPIPath := "/api/v1" |} |}.

Definition sample_url (r : Request) : string :=
  "https://10.96.0.1:443/api/v1/namespaces/" +:+ namespace r +:+ "/" +:+
  resource r.

Definition sample_executor : Executor :=
  {| ex_config := Some sample_config; ex_method := "GET";
     ex_url := "https://10.96.0.1:443/api/v1/namespaces/default/pods" |}.

Definition not_in_cluster : error :=
  errorString "unable to load in-cluster configuration".

Definition no_kubeconfig : error :=
  errorString "stat /root/.kube/config: no such file or directory".

(** A process inside the cluster, whose exec sessions deliver [frames] and
    end with [serr]; a stream started under a cancelled context delivers
    nothing and ends with [context.Canceled]. *)
Definition in_cluster_world (frames : list frame) (serr : option error)
  : World :=
  {| environ := {[ "HOME" := "/root" ]};
     InClusterConfig := (Some sample_config, None);
     BuildConfigFromFlags := λ _ _, (None, Some no_kubeconfig);
     NewForConfig := λ _, (Some sample_clientset, None);
     RESTClientFor := λ _, (Some (coreV1 sample_clientset), None);
     AddToScheme := λ s, ("v1" :: s, None);
     RequestURL := sample_url;
     NewSPDYExecutor := λ cf m u,
       (Some {| ex_config := cf; ex_method := m; ex_url := u |}, None);
     StreamWithContext := λ _ ctx _ _,
       match Context_Err ctx with
       | Some e => ([], Some e)
       | None => (frames, serr)
       end |}.

(** A process outside the cluster with environment [env] and no readable
    kubeconfig file. *)
Definition outside_world (env : gmap string string) : World :=
  {| environ := env;
     InClusterConfig := (None, Some not_in_cluster);
     BuildConfigFromFlags := λ _ _, (None, Some no_kubeconfig);
     NewForConfig := λ _, (Some sample_clientset, None);
     RESTClientFor := λ _, (Some (coreV1 sample_clientset), None);
     AddToScheme := λ s, ("v1" :: s, None);
     RequestURL := sample_url;
     NewSPDYExecutor := λ cf m u,
       (Some {| ex_config := cf; ex_method := m; ex_url := u |}, None);
     StreamWithContext := λ _ _ _ _, ([], None) |}.

(** [w] with other answers for the client factory, the scheme registration
    and the upgrade negotiation. *)
Definition with_NewForConfig (w : World)
  (r : option Clientset * option error) : World :=
  {| environ := environ w; InClusterConfig := InClusterConfig w;
     BuildConfigFromFlags := BuildConfigFromFlags w;
     NewForConfig := λ _, r;
     RESTClientFor := RESTClientFor w; AddToScheme := AddToScheme w;
     RequestURL := RequestURL w; NewSPDYExecutor := NewSPDYExecutor w;
     StreamWithContext := StreamWithContext w |}.

Definition with_InClusterConfig (w : World)
  (r : option Config * option error) : World :=
  {| environ := environ w; InClusterConfig := r;
     BuildConfigFromFlags := BuildConfigFromFlags w;
     NewForConfig := NewForConfig w;
     RESTClientFor := RESTClientFor w; AddToScheme := AddToScheme w;
     RequestURL := RequestURL w; NewSPDYExecutor := NewSPDYExecutor w;
     StreamWithContext := StreamWithContext w |}.

Definition with_AddToScheme (w : World) (err : option error) : World :=
  {| environ := environ w; InClusterConfig := InClusterConfig w;
     BuildConfigFromFlags := BuildConfigFromFlags w;
     NewForConfig := NewForConfig w;
     RESTClientFor := RESTClientFor w; AddToScheme := λ s, (s, err);
     RequestURL := RequestURL w; NewSPDYExecutor := NewSPDYExecutor w;
     StreamWithContext := StreamWithContext w |}.

Definition with_NewSPDYExecutor (w : World)
  (r : option Executor * option error) : World :=
  {| environ := environ w; InClusterConfig := InClusterConfig w;
     BuildConfigFromFlags := BuildConfigFromFlags w;
     NewForConfig := NewForConfig w;
     RESTClientFor := RESTClientFor w; AddToScheme := AddToScheme w;
     RequestURL := RequestURL w; NewSPDYExecutor := λ _ _ _, r;
     StreamWithContext := StreamWithContext w |}.

Definition hello : list frame := [(Stdout, "hello" +:+ nl)].

Definition handshake_failure : error :=
  errorString "tls: handshake failure".

Definition connection_reset : error :=
  errorString "read tcp: connection reset by peer".

(** A process inside the cluster whose API server refuses the upgrade. *)
Definition handshake_world : World :=
  with_NewSPDYExecutor (in_cluster_world hello None)
    (None, Some handshake_failure).

(** A cancellation signal held by a caller, already fired. *)
Definition fired_signal : Context := WithCancel Background true.

(** A world that answers like [in_cluster_world [] (Some context_Canceled)]
    except for streams started under a derived context, which deliver
    [hello] and end cleanly. *)
Definition derived_streams_world : World :=
  {| environ := {[ "HOME" := "/root" ]};
     InClusterConfig := (Some sample_config, None);
     BuildConfigFromFlags := λ _ _, (None, Some no_kubeconfig);
     NewForConfig := λ _, (Some sample_clientset, None);
     RESTClientFor := λ _, (Some (coreV1 sample_clientset), None);
     AddToScheme := λ s, ("v1" :: s, None);
     RequestURL := sample_url;
     NewSPDYExecutor := λ cf m u,
       (Some {| ex_config := cf; ex_method := m; ex_url := u |}, None);
     StreamWithContext := λ _ ctx _ _,
       match ctx with
       | Background => ([], Some context_Canceled)
       | WithCancel _ _ => (hello, None)
       end |}.

(** ** Return sites and call arguments *)

Definition is_Getenv (e : event) : bool :=
  match e with CallGetenv _ => true | _ => false end.

Definition is_NewForConfig (e : event) : bool :=
  match e with CallNewForConfig _ => true | _ => false end.

(** The return sites of [PodList], and the panic of a call through a nil
    executor: what each one requires of the collaborators' answers, and the
    result and trace it leaves. *)
Inductive PodList_site (w : World) (ns : string) (stdin : option Reader)
  : outcome (string * string * option error) -> list event -> Prop :=
| site_resolution_error (config : option Config) (e : error) :
    result (GetClusterClientConfig w) = Return (config, Some e) ->
    PodList_site w ns stdin
      (Return ("", "", Some e))
      (trace (GetClusterClientConfig w)
         ++ [LogInfo "Unable to get ClusterClientConfig" []])%list
| site_nil_config :
    result (GetClusterClientConfig w) = Return (None, None) ->
    PodList_site w ns stdin
      (Return ("", "", Some (errorString "nil config")))
      (trace (GetClusterClientConfig w)
         ++ [LogInfo "Unable to get config" []])%list
| site_clientset_error (cfg : Config) (cs : option Clientset) (e : error) :
    result (GetClusterClientConfig w) = Return (Some cfg, None) ->
    NewForConfig w (Some cfg) = (cs, Some e) ->
    PodList_site w ns stdin
      (Return ("", "",
               Some (errorString
                       ("failed creating clientset. Error: " +:+ Error e))))
      (trace (GetClusterClientConfig w)
         ++ [CallNewForConfig (Some cfg);
             LogInfo "Unable to get ClientSetFromClusterConfig" []])%list
| site_nil_clientset (cfg : Config) :
    result (GetClusterClientConfig w) = Return (Some cfg, None) ->
    NewForConfig w (Some cfg) = (None, None) ->
    PodList_site w ns stdin
      (Return ("", "", Some (errorString "nil clientset")))
      (trace (GetClusterClientConfig w)
         ++ [CallNewForConfig (Some cfg);
             LogInfo "Clientset is null" []])%list
| site_scheme_error (cfg : Config) (cs : Clientset) (s : Scheme) (e : error) :
    result (GetClusterClientConfig w) = Return (Some cfg, None) ->
    NewForConfig w (Some cfg) = (Some cs, None) ->
    AddToScheme w [] = (s, Some e) ->
    PodList_site w ns stdin
      (Return ("", "",
               Some (errorString ("error adding to scheme: " +:+ Error e))))
      (trace (GetClusterClientConfig w)
         ++ [CallNewForConfig (Some cfg); CallRequest (pods_request cs ns);
             CallAddToScheme [];
             LogInfo "Unable to add scheme" [("Scheme", LogScheme s)]])%list
| site_executor_error (cfg : Config) (cs : Clientset) (s : Scheme)
    (ex : option Executor) (e : error) :
    result (GetClusterClientConfig w) = Return (Some cfg, None) ->
    NewForConfig w (Some cfg) = (Some cs, None) ->
    AddToScheme w [] = (s, None) ->
    NewSPDYExecutor w (Some cfg) "GET" (RequestURL w (pods_request cs ns))
    = (ex, Some e) ->
    PodList_site w ns stdin
      (Return ("", "",
               Some (errorString "error while creating Executor: <nil>")))
      (trace (GetClusterClientConfig w) ++ negotiation_trace w ns cfg cs)%list
| site_nil_executor (cfg : Config) (cs : Clientset) (s : Scheme) :
    result (GetClusterClientConfig w) = Return (Some cfg, None) ->
    NewForConfig w (Some cfg) = (Some cs, None) ->
    AddToScheme w [] = (s, None) ->
    NewSPDYExecutor w (Some cfg) "GET" (RequestURL w (pods_request cs ns))
    = (None, None) ->
    PodList_site w ns stdin
      (Panic "invalid memory address or nil pointer dereference")
      (trace (GetClusterClientConfig w) ++ negotiation_trace w ns cfg cs)%list
| site_stream_error (cfg : Config) (cs : Clientset) (s : Scheme)
    (ex : Executor) (frames : list frame) (e : error) :
    result (GetClusterClientConfig w) = Return (Some cfg, None) ->
    NewForConfig w (Some cfg) = (Some cs, None) ->
    AddToScheme w [] = (s, None) ->
    NewSPDYExecutor w (Some cfg) "GET" (RequestURL w (pods_request cs ns))
    = (Some ex, None) ->
    StreamWithContext w ex Background stdin false = (frames, Some e) ->
    PodList_site w ns stdin
      (Return ("", "", Some (errorString ("error in Stream: " +:+ Error e))))
      (trace (GetClusterClientConfig w) ++ negotiation_trace w ns cfg cs
         ++ [CallStreamWithContext ex Background stdin false])%list
| site_completed (cfg : Config) (cs : Clientset) (s : Scheme)
    (ex : Executor) (frames : list frame) :
    result (GetClusterClientConfig w) = Return (Some cfg, None) ->
    NewForConfig w (Some cfg) = (Some cs, None) ->
    AddToScheme w [] = (s, None) ->
    NewSPDYExecutor w (Some cfg) "GET" (RequestURL w (pods_request cs ns))
    = (Some ex, None) ->
    StreamWithContext w ex Background stdin false = (frames, None) ->
    PodList_site w ns stdin
      (Return (emitted Stdout frames, emitted Stderr frames, None))
      (trace (GetClusterClientConfig w) ++ negotiation_trace w ns cfg cs
         ++ [CallStreamWithContext ex Background stdin false])%list.

(** What a call of [PodList w ns stdin] may ask of a collaborator. *)
Definition PodList_call (w : World) (ns : string) (stdin : option Reader)
  (e : event) : Prop :=
  match e with
  | CallInClusterConfig => True
  | CallGetenv key => key = "HOME"
  | CallBuildConfigFromFlags masterUrl kubeconfigPath =>
      masterUrl = "" /\ kubeconfigPath = kubeconfig_path w
  | CallNewForConfig config =>
      config <> None /\
      result (GetClusterClientConfig w) = Return (config, None)
  | CallRESTClientFor _ => False
  | CallRequest req =>
      verb req = "GET" /\ resource req = "pods" /\
      namespace req = ns /\ namespaceSet req = true
  | CallAddToScheme s => s = []
  | CallNewSPDYExecutor config method url =>
      result (GetClusterClientConfig w) = Return (config, None) /\
      method = "GET" /\
      exists cs, NewForConfig w config = (Some cs, None) /\
                 url = RequestURL w (pods_request cs ns)
  | CallStreamWithContext ex ctx sin tty =>
      ctx = Background /\ sin = stdin /\ tty = false /\
      exists config url,
        NewSPDYExecutor w config "GET" url = (Some ex, None)
  | LogInfo _ _ => True
  end.

(** A path element as [filepath.Clean] keeps it: not empty, and without a
    separator. *)
Fixpoint slash_free (s : string) : bool :=
  match s with
  | "" => true
  | String ch s' => negb (Ascii.eqb ch "/"%char) && slash_free s'
  end.

Definition kept_element (s : string) : Prop :=
  s <> "" /\ slash_free s = true.

(** A process outside the cluster whose only readable kubeconfig is
    [/root/.kube/config]. *)
Definition kubeconfig_world (env : gmap string string) : World :=
  {| environ := env;
     InClusterConfig := (None, Some not_in_cluster);
     BuildConfigFromFlags := λ _ k,
       if decide (k = "/root/.kube/config") then (Some sample_config, None)
       else (None, Some no_kubeconfig);
     NewForConfig := λ _, (Some sample_clientset, None);
     RESTClientFor := λ _, (Some (coreV1 sample_clientset), None);
     AddToScheme := λ s, ("v1" :: s, None);
     RequestURL := sample_url;
     NewSPDYExecutor := λ cf m u,
       (Some {| ex_config := cf; ex_method := m; ex_url := u |}, None);
     StreamWithContext := λ _ _ _ _, (hello, None) |}.

Definition with_RESTClientFor (w : World)
  (r : option RESTClient * option error) : World :=
  {| environ := environ w; InClusterConfig := InClusterConfig w;
     BuildConfigFromFlags := BuildConfigFromFlags w;
     NewForConfig := NewForConfig w;
     RESTClientFor := λ _, r; AddToScheme := AddToScheme w;
     RequestURL := RequestURL w; NewSPDYExecutor := NewSPDYExecutor w;
     StreamWithContext := StreamWithContext w |}.

(** ** Lemmas on strings *)

Lemma string_app_cons (ch : ascii) (s t : string) :
  String ch s +:+ t = String ch (s +:+ t).
Proof. reflexivity. Qed.

Lemma string_app_nil_r (s : string) : s +:+ "" = s.
Proof. induction s as [|ch s IH]; [done | by rewrite string_app_cons, IH]. Qed.

Lemma string_app_assoc (s t u : string) : (s +:+ t) +:+ u = s +:+ (t +:+ u).
Proof. induction s as [|ch s IH]; [done | by rewrite !string_app_cons, IH]. Qed.

Lemma prefix_app (s t : string) : String.prefix s (s +:+ t) = true.
Proof.
  induction s as [|ch s IH].
  - by destruct t.
  - rewrite string_app_cons. simpl.
    destruct (ascii_dec ch ch) as [_|Hne]; [apply IH | by destruct Hne].
Qed.

Lemma Contains_prefix (s t : string) : strings_Contains (s +:+ t) s = true.
Proof.
  destruct s as [|ch s].
  - by destruct t.
  - rewrite string_app_cons. simpl.
    destruct (ascii_dec ch ch) as [_|Hne]; [| by destruct Hne].
    by rewrite prefix_app.
Qed.

Lemma Contains_app (pre s post : string) :
  strings_Contains (pre +:+ s +:+ post) s = true.
Proof.
  induction pre as [|ch pre IH].
  - change ("" +:+ s +:+ post) with (s +:+ post). apply Contains_prefix.
  - rewrite string_app_cons. cbn [strings_Contains].
    rewrite IH. apply orb_true_r.
Qed.

Lemma Contains_suffix (pre s : string) : strings_Contains (pre +:+ s) s = true.
Proof.
  rewrite <- (string_app_nil_r s) at 1. apply Contains_app.
Qed.

Lemma Contains_skip (pre t s : string) :
  strings_Contains t s = true -> strings_Contains (pre +:+ t) s = true.
Proof.
  intros Ht. induction pre as [|ch pre IH]; [exact Ht|].
  rewrite string_app_cons. cbn [strings_Contains].
  rewrite IH. apply orb_true_r.
Qed.

(** ** Lemmas on formatting *)

Lemma Errorf_both_failed (e1 e2 : error) :
  fmt_Errorf
    ("InClusterConfig as well as BuildConfigFromFlags Failed. " +:+
     "Error in InClusterConfig: %+v" +:+ nl +:+
     "Error in BuildConfigFromFlags: %+v") [Some e1; Some e2]
  = errorString (both_failed_text e1 e2).
Proof.
  unfold fmt_Errorf, both_failed_text. f_equal.
  rewrite <- (string_app_nil_r (Error e2)). reflexivity.
Qed.

Lemma Errorf_clientset (e : error) :
  fmt_Errorf "failed creating clientset. Error: %+v" [Some e]
  = errorString ("failed creating clientset. Error: " +:+ Error e).
Proof.
  unfold fmt_Errorf. f_equal.
  rewrite <- (string_app_nil_r (Error e)). reflexivity.
Qed.

Lemma Errorf_scheme (e : error) :
  fmt_Errorf "error adding to scheme: %v" [Some e]
  = errorString ("error adding to scheme: " +:+ Error e).
Proof.
  unfold fmt_Errorf. f_equal.
  rewrite <- (string_app_nil_r (Error e)). reflexivity.
Qed.

Lemma Errorf_stream (e : error) :
  fmt_Errorf "error in Stream: %v" [Some e]
  = errorString ("error in Stream: " +:+ Error e).
Proof.
  unfold fmt_Errorf. f_equal.
  rewrite <- (string_app_nil_r (Error e)). reflexivity.
Qed.

Lemma Errorf_executor_nil :
  fmt_Errorf "error while creating Executor: %v" [None]
  = errorString "error while creating Executor: <nil>".
Proof. reflexivity. Qed.

(** ** Credential resolution *)

(** [GetClusterClientConfig] case by case: its result and its trace. *)
Lemma GetClusterClientConfig_run (w : World) :
  run (GetClusterClientConfig w) =
  match InClusterConfig w with
  | (config, None) => (Return (config, None), [CallInClusterConfig])
  | (_, Some e1) =>
      match BuildConfigFromFlags w "" (kubeconfig_path w) with
      | (config, None) => (Return (config, None), fallback_trace w)
      | (_, Some e2) =>
          (Return (None, Some (errorString (both_failed_text e1 e2))),
           fallback_trace w)
      end
  end.
Proof.
  unfold run, GetClusterClientConfig, mbind, M_bind, rest_InClusterConfig, emit.
  destruct (InClusterConfig w) as [config [e1|]]; [|reflexivity].
  cbn -[fmt_Errorf filepath_Join]. fold (kubeconfig_path w).
  destruct (BuildConfigFromFlags w "" (kubeconfig_path w)) as [config' [e2|]];
    [|reflexivity].
  rewrite Errorf_both_failed. reflexivity.
Qed.

(** A call never panics, and never returns a config together with an
    error. *)
Lemma GetClusterClientConfig_result (w : World) :
  (exists config, result (GetClusterClientConfig w) = Return (config, None))
  \/ (exists e, result (GetClusterClientConfig w) = Return (None, Some e)).
Proof.
  unfold result. rewrite GetClusterClientConfig_run.
  destruct (InClusterConfig w) as [config [e1|]]; [|by left; eexists].
  destruct (BuildConfigFromFlags w "" (kubeconfig_path w)) as [config' [e2|]];
    [by right; eexists | by left; eexists].
Qed.

(** The only collaborators a resolution talks to are the two discovery
    methods and the environment, each at most once. *)
Lemma GetClusterClientConfig_attempts (w : World) :
  (count is_InClusterConfig (trace (GetClusterClientConfig w)) <= 1)%nat /\
  (count is_BuildConfigFromFlags (trace (GetClusterClientConfig w)) <= 1)%nat.
Proof.
  unfold trace. rewrite GetClusterClientConfig_run.
  destruct (InClusterConfig w) as [config [e1|]]; [|cbn; lia].
  destruct (BuildConfigFromFlags w "" (kubeconfig_path w)) as [config' [e2|]];
    cbn; lia.
Qed.

Lemma GetClusterClientConfig_quiet (w : World) (p : event -> bool) :
  p CallInClusterConfig = false ->
  p (CallGetenv "HOME") = false ->
  p (CallBuildConfigFromFlags "" (kubeconfig_path w)) = false ->
  count p (trace (GetClusterClientConfig w)) = 0.
Proof.
  intros H1 H2 H3. unfold trace. rewrite GetClusterClientConfig_run.
  destruct (InClusterConfig w) as [config [e1|]];
    [|by cbn; rewrite H1].
  destruct (BuildConfigFromFlags w "" (kubeconfig_path w)) as [config' [e2|]];
    by unfold fallback_trace; cbn [count snd]; rewrite H1, H2, H3.
Qed.

(** C3.  When in-cluster discovery succeeds, [GetClusterClientConfig]
    returns the discovered config at once: the only collaborator called is
    [rest.InClusterConfig], so the kubeconfig fallback is not attempted.  In
    every call, whatever the outcome, each of the two methods is attempted at
    most once. *)
Theorem GetClusterClientConfig_in_cluster_first
  (w : World) (config : option Config) :
  InClusterConfig w = (config, None) ->
  result (GetClusterClientConfig w) = Return (config, None) /\
  trace (GetClusterClientConfig w) = [CallInClusterConfig] /\
  count is_BuildConfigFromFlags (trace (GetClusterClientConfig w)) = 0 /\
  (forall w' : World,
     (count is_InClusterConfig (trace (GetClusterClientConfig w')) <= 1)%nat /\
     (count is_BuildConfigFromFlags (trace (GetClusterClientConfig w')) <= 1)%nat).
Proof.
  intros Hin. unfold result, trace.
  rewrite GetClusterClientConfig_run, Hin. cbn.
  repeat split; try apply GetClusterClientConfig_attempts.
Qed.

Lemma GetClusterClientConfig_in_cluster_first_witness :
  result (GetClusterClientConfig (in_cluster_world hello None))
  = Return (Some sample_config, None) /\
  trace (GetClusterClientConfig (in_cluster_world hello None))
  = [CallInClusterConfig].
Proof.
  destruct (GetClusterClientConfig_in_cluster_first
              (in_cluster_world hello None) (Some sample_config) eq_refl)
    as (Hres & Htr & _).
  exact (conj Hres Htr).
Defined.

(** C4.  When in-cluster discovery fails with [e1] and the kubeconfig
    fallback fails with [e2], [GetClusterClientConfig] returns a nil config,
    whatever the two methods returned as config, and one error whose text
    names both methods and contains the text of both [e1] and [e2]. *)
Theorem GetClusterClientConfig_both_fail
  (w : World) (c1 c2 : option Config) (e1 e2 : error) :
  InClusterConfig w = (c1, Some e1) ->
  BuildConfigFromFlags w "" (kubeconfig_path w) = (c2, Some e2) ->
  exists e : error,
    result (GetClusterClientConfig w) = Return (None, Some e) /\
    Error e = both_failed_text e1 e2 /\
    strings_Contains (Error e) "InClusterConfig" = true /\
    strings_Contains (Error e) "BuildConfigFromFlags" = true /\
    strings_Contains (Error e) (Error e1) = true /\
    strings_Contains (Error e) (Error e2) = true.
Proof.
  intros Hin Hfile. exists (errorString (both_failed_text e1 e2)).
  unfold result. rewrite GetClusterClientConfig_run, Hin, Hfile.
  cbn [fst Error].
  split; [reflexivity|]. split; [reflexivity|].
  split; [reflexivity|]. split; [reflexivity|].
  split.
  - unfold both_failed_text.
    apply (Contains_app
             ("InClusterConfig as well as BuildConfigFromFlags Failed. " +:+
              "Error in InClusterConfig: ")).
  - unfold both_failed_text.
    do 4 apply Contains_skip. apply Contains_suffix.
Qed.

Lemma GetClusterClientConfig_both_fail_witness :
  result (GetClusterClientConfig (outside_world {[ "HOME" := "/root" ]}))
  = Return (None,
            Some (errorString (both_failed_text not_in_cluster no_kubeconfig))).
Proof.
  destruct (GetClusterClientConfig_both_fail
              (outside_world {[ "HOME" := "/root" ]}) None None
              not_in_cluster no_kubeconfig eq_refl eq_refl)
    as ([text] & Hres & Htext & _).
  cbn [Error] in Htext. rewrite Htext in Hres. exact Hres.
Defined.

(** C10.  When in-cluster discovery fails, the path handed to
    [BuildConfigFromFlags] is [filepath.Join] of the value of HOME with
    [.kube] and [config].  When HOME is unset or empty, that path is the
    relative path [.kube/config]. *)
Theorem GetClusterClientConfig_kubeconfig_path
  (w : World) (c1 : option Config) (e1 : error) :
  InClusterConfig w = (c1, Some e1) ->
  trace (GetClusterClientConfig w)
  = [CallInClusterConfig; CallGetenv "HOME";
     CallBuildConfigFromFlags ""
       (filepath_Join [os_Getenv_in (environ w) "HOME"; ".kube"; "config"])]
  /\ (environ w !! "HOME" = None \/ environ w !! "HOME" = Some "" ->
      trace (GetClusterClientConfig w)
      = [CallInClusterConfig; CallGetenv "HOME";
         CallBuildConfigFromFlags "" ".kube/config"]
      /\ filepath_IsAbs ".kube/config" = false).
Proof.
  intros Hin.
  assert (Htr : trace (GetClusterClientConfig w) = fallback_trace w).
  { unfold trace. rewrite GetClusterClientConfig_run, Hin.
    by destruct (BuildConfigFromFlags w "" (kubeconfig_path w)) as [? [?|]]. }
  split; [exact Htr|].
  intros Hhome. split; [|reflexivity].
  rewrite Htr. unfold fallback_trace, kubeconfig_path, os_Getenv_in.
  by destruct Hhome as [-> | ->].
Qed.

Lemma GetClusterClientConfig_kubeconfig_path_witness :
  trace (GetClusterClientConfig (outside_world ∅))
  = [CallInClusterConfig; CallGetenv "HOME";
     CallBuildConfigFromFlags "" ".kube/config"]
  /\ trace (GetClusterClientConfig (outside_world {[ "HOME" := "" ]}))
  = [CallInClusterConfig; CallGetenv "HOME";
     CallBuildConfigFromFlags "" ".kube/config"].
Proof.
  split.
  - exact (proj1 (proj2 (GetClusterClientConfig_kubeconfig_path
                           (outside_world ∅) None not_in_cluster eq_refl)
                        (or_introl eq_refl))).
  - exact (proj1 (proj2 (GetClusterClientConfig_kubeconfig_path
                           (outside_world {[ "HOME" := "" ]}) None
                           not_in_cluster eq_refl)
                        (or_intror eq_refl))).
Defined.

(** ** Lemmas on traces and buffers *)

Lemma run_eta {A} (m : M A) : m [] = (result m, trace m).
Proof. unfold result, trace, run. by destruct (m []). Qed.

Lemma count_app (p : event -> bool) (tr1 tr2 : list event) :
  count p (tr1 ++ tr2)%list = (count p tr1 + count p tr2)%nat.
Proof.
  induction tr1 as [|e tr1 IH]; [done|].
  cbn [app count]. rewrite IH. lia.
Qed.

(** Writing the frames one by one leaves in each buffer the bytes of its
    own channel, in arrival order. *)
Lemma deliver_emitted (frames : list frame) (out err : Buffer) :
  foldl deliver (out, err) frames
  = (out +:+ emitted Stdout frames, err +:+ emitted Stderr frames).
Proof.
  revert out err. induction frames as [|[[|] p] fs IH]; intros out err.
  - cbn. by rewrite !string_app_nil_r.
  - cbn [foldl deliver emitted fst snd]. rewrite IH.
    unfold Buffer_Write. by rewrite string_app_assoc.
  - cbn [foldl deliver emitted fst snd]. rewrite IH.
    unfold Buffer_Write. by rewrite string_app_assoc.
Qed.

(** ** [PodList], return site by return site *)

Ltac PodList_begin :=
  unfold run, PodList, GetClientsetFromClusterConfig, kubernetes_NewForConfig,
    new_Request, core_v1_AddToScheme, remotecommand_NewSPDYExecutor,
    exec_StreamWithContext, Info, emit, panic;
  unfold mbind, M_bind, mret, M_ret;
  rewrite run_eta.

Ltac PodList_step H := rewrite H; cbn -[fmt_Errorf foldl].

Ltac PodList_end := rewrite <- ?app_assoc; reflexivity.

Section Stages.

Context (w : World) (ns : string) (stdin : option Reader).

Lemma PodList_resolution_error (config : option Config) (e : error) :
  result (GetClusterClientConfig w) = Return (config, Some e) ->
  run (PodList w ns stdin)
  = (Return ("", "", Some e),
     trace (GetClusterClientConfig w)
       ++ [LogInfo "Unable to get ClusterClientConfig" []])%list.
Proof. intros Hcfg. PodList_begin. PodList_step Hcfg. PodList_end. Qed.

Lemma PodList_nil_config :
  result (GetClusterClientConfig w) = Return (None, None) ->
  run (PodList w ns stdin)
  = (Return ("", "", Some (errorString "nil config")),
     trace (GetClusterClientConfig w)
       ++ [LogInfo "Unable to get config" []])%list.
Proof. intros Hcfg. PodList_begin. PodList_step Hcfg. PodList_end. Qed.

Lemma PodList_clientset_error
  (cfg : Config) (cs : option Clientset) (e : error) :
  result (GetClusterClientConfig w) = Return (Some cfg, None) ->
  NewForConfig w (Some cfg) = (cs, Some e) ->
  run (PodList w ns stdin)
  = (Return ("", "",
             Some (errorString
                     ("failed creating clientset. Error: " +:+ Error e))),
     trace (GetClusterClientConfig w)
       ++ [CallNewForConfig (Some cfg);
           LogInfo "Unable to get ClientSetFromClusterConfig" []])%list.
Proof.
  intros Hcfg Hcs. PodList_begin. PodList_step Hcfg. PodList_step Hcs.
  rewrite Errorf_clientset. PodList_end.
Qed.

Lemma PodList_nil_clientset (cfg : Config) :
  result (GetClusterClientConfig w) = Return (Some cfg, None) ->
  NewForConfig w (Some cfg) = (None, None) ->
  run (PodList w ns stdin)
  = (Return ("", "", Some (errorString "nil clientset")),
     trace (GetClusterClientConfig w)
       ++ [CallNewForConfig (Some cfg); LogInfo "Clientset is null" []])%list.
Proof.
  intros Hcfg Hcs. PodList_begin. PodList_step Hcfg. PodList_step Hcs.
  PodList_end.
Qed.

Lemma PodList_scheme_error
  (cfg : Config) (cs : Clientset) (s : Scheme) (e : error) :
  result (GetClusterClientConfig w) = Return (Some cfg, None) ->
  NewForConfig w (Some cfg) = (Some cs, None) ->
  AddToScheme w [] = (s, Some e) ->
  run (PodList w ns stdin)
  = (Return ("", "",
             Some (errorString ("error adding to scheme: " +:+ Error e))),
     trace (GetClusterClientConfig w)
       ++ [CallNewForConfig (Some cfg); CallRequest (pods_request cs ns);
           CallAddToScheme [];
           LogInfo "Unable to add scheme" [("Scheme", LogScheme s)]])%list.
Proof.
  intros Hcfg Hcs Hs. PodList_begin. PodList_step Hcfg. PodList_step Hcs.
  fold (pods_request cs ns). PodList_step Hs.
  rewrite Errorf_scheme. PodList_end.
Qed.

Lemma PodList_executor_error
  (cfg : Config) (cs : Clientset) (s : Scheme)
  (ex : option Executor) (e : error) :
  result (GetClusterClientConfig w) = Return (Some cfg, None) ->
  NewForConfig w (Some cfg) = (Some cs, None) ->
  AddToScheme w [] = (s, None) ->
  NewSPDYExecutor w (Some cfg) "GET" (RequestURL w (pods_request cs ns))
  = (ex, Some e) ->
  run (PodList w ns stdin)
  = (Return ("", "",
             Some (errorString "error while creating Executor: <nil>")),
     trace (GetClusterClientConfig w) ++ negotiation_trace w ns cfg cs)%list.
Proof.
  intros Hcfg Hcs Hs Hex. PodList_begin. PodList_step Hcfg. PodList_step Hcs.
  fold (pods_request cs ns). PodList_step Hs. PodList_step Hex.
  rewrite Errorf_executor_nil. PodList_end.
Qed.

Lemma PodList_nil_executor (cfg : Config) (cs : Clientset) (s : Scheme) :
  result (GetClusterClientConfig w) = Return (Some cfg, None) ->
  NewForConfig w (Some cfg) = (Some cs, None) ->
  AddToScheme w [] = (s, None) ->
  NewSPDYExecutor w (Some cfg) "GET" (RequestURL w (pods_request cs ns))
  = (None, None) ->
  run (PodList w ns stdin)
  = (Panic "invalid memory address or nil pointer dereference",
     trace (GetClusterClientConfig w) ++ negotiation_trace w ns cfg cs)%list.
Proof.
  intros Hcfg Hcs Hs Hex. PodList_begin. PodList_step Hcfg. PodList_step Hcs.
  fold (pods_request cs ns). PodList_step Hs. PodList_step Hex.
  PodList_end.
Qed.

Lemma PodList_streamed
  (cfg : Config) (cs : Clientset) (s : Scheme) (ex : Executor)
  (frames : list frame) (serr : option error) :
  result (GetClusterClientConfig w) = Return (Some cfg, None) ->
  NewForConfig w (Some cfg) = (Some cs, None) ->
  AddToScheme w [] = (s, None) ->
  NewSPDYExecutor w (Some cfg) "GET" (RequestURL w (pods_request cs ns))
  = (Some ex, None) ->
  StreamWithContext w ex Background stdin false = (frames, serr) ->
  run (PodList w ns stdin)
  = (Return
       match serr with
       | Some e => ("", "", Some (errorString ("error in Stream: " +:+ Error e)))
       | None => (emitted Stdout frames, emitted Stderr frames, None)
       end,
     trace (GetClusterClientConfig w) ++ negotiation_trace w ns cfg cs
       ++ [CallStreamWithContext ex Background stdin false])%list.
Proof.
  intros Hcfg Hcs Hs Hex Hstream.
  PodList_begin. PodList_step Hcfg. PodList_step Hcs.
  fold (pods_request cs ns). PodList_step Hs. PodList_step Hex.
  PodList_step Hstream. rewrite deliver_emitted.
  destruct serr as [e|]; cbn -[fmt_Errorf].
  - rewrite Errorf_stream. PodList_end.
  - PodList_end.
Qed.

End Stages.

(** ** The client factory *)

Lemma GetClientsetFromClusterConfig_run (w : World) (config : option Config) :
  run (GetClientsetFromClusterConfig w config) =
  match NewForConfig w config with
  | (_, Some e) =>
      (Return (None,
               Some (errorString
                       ("failed creating clientset. Error: " +:+ Error e))),
       [CallNewForConfig config])
  | (clientset, None) => (Return (clientset, None), [CallNewForConfig config])
  end.
Proof.
  unfold run, GetClientsetFromClusterConfig, kubernetes_NewForConfig, emit.
  unfold mbind, M_bind, mret, M_ret.
  destruct (NewForConfig w config) as [clientset [e|]]; [|reflexivity].
  cbn -[fmt_Errorf]. by rewrite Errorf_clientset.
Qed.

(** ** Remote execution *)

(** C5.  When every step before streaming succeeds and the session ends
    with an error [cause] after delivering [frames], [PodList] returns empty
    stdout and stderr and the error [error in Stream: cause]; the bytes of
    [frames] are not returned, whatever they are. *)
Theorem PodList_stream_failure_discards_output
  (w : World) (ns : string) (stdin : option Reader)
  (cfg : Config) (cs : Clientset) (ex : Executor)
  (frames : list frame) (cause : error) :
  stream_ready w ns cfg cs ex ->
  StreamWithContext w ex Background stdin false = (frames, Some cause) ->
  result (PodList w ns stdin)
  = Return ("", "", Some (errorString ("error in Stream: " +:+ Error cause)))
  /\ is_StreamError (errorString ("error in Stream: " +:+ Error cause)) = true
  /\ strings_Contains ("error in Stream: " +:+ Error cause) (Error cause)
     = true
  /\ count is_StreamWithContext (trace (PodList w ns stdin)) = 1.
Proof.
  intros [Hcfg Hcs Hs Hex] Hstream.
  destruct (AddToScheme w []) as [s serr] eqn:Hscheme.
  cbn [snd] in Hs. subst serr.
  unfold result, trace.
  rewrite (PodList_streamed w ns stdin cfg cs s ex frames (Some cause))
    by assumption.
  cbn [fst snd].
  split; [reflexivity|]. split; [apply prefix_app|].
  split; [apply Contains_suffix|].
  rewrite !count_app.
  rewrite (GetClusterClientConfig_quiet w is_StreamWithContext) by reflexivity.
  reflexivity.
Qed.

Lemma PodList_stream_failure_discards_output_witness :
  result (PodList
            (in_cluster_world [(Stdout, "hel")] (Some connection_reset))
            "default" None)
  = Return ("", "",
            Some (errorString
                    "error in Stream: read tcp: connection reset by peer")).
Proof.
  refine (proj1 (PodList_stream_failure_discards_output
                   (in_cluster_world [(Stdout, "hel")] (Some connection_reset))
                   "default" None sample_config sample_clientset
                   sample_executor [(Stdout, "hel")] connection_reset
                   _ eq_refl)).
  split; reflexivity.
Defined.

(** C6.  When every step before streaming succeeds and the session ends
    cleanly after delivering [frames], [PodList] returns, with a nil error,
    the bytes sent on stdout as its first string and the bytes sent on
    stderr as its second, each in arrival order and free of the other
    channel's bytes.  A session sending [hello\n] on stdout and nothing on
    stderr gives [("hello\n", "", nil)]. *)
Theorem PodList_clean_session_output
  (w : World) (ns : string) (stdin : option Reader)
  (cfg : Config) (cs : Clientset) (ex : Executor) (frames : list frame) :
  stream_ready w ns cfg cs ex ->
  StreamWithContext w ex Background stdin false = (frames, None) ->
  result (PodList w ns stdin)
  = Return (emitted Stdout frames, emitted Stderr frames, None)
  /\ (frames = hello ->
      result (PodList w ns stdin) = Return ("hello" +:+ nl, "", None)).
Proof.
  intros [Hcfg Hcs Hs Hex] Hstream.
  destruct (AddToScheme w []) as [s serr] eqn:Hscheme.
  cbn [snd] in Hs. subst serr.
  assert (Hres : result (PodList w ns stdin)
                 = Return (emitted Stdout frames, emitted Stderr frames, None)).
  { unfold result.
    by rewrite (PodList_streamed w ns stdin cfg cs s ex frames None). }
  split; [exact Hres|].
  intros ->. exact Hres.
Qed.

Lemma PodList_clean_session_output_witness :
  result (PodList (in_cluster_world hello None) "default" None)
  = Return ("hello" +:+ nl, "", None)
  /\ result (PodList
               (in_cluster_world
                  [(Stdout, "a"); (Stderr, "x"); (Stdout, "b"); (Stderr, "y")]
                  None)
               "default" None)
  = Return ("ab", "xy", None).
Proof.
  split.
  - refine (proj2 (PodList_clean_session_output
                     (in_cluster_world hello None) "default" None
                     sample_config sample_clientset sample_executor hello
                     _ eq_refl) eq_refl).
    split; reflexivity.
  - refine (proj1 (PodList_clean_session_output
                     (in_cluster_world
                        [(Stdout, "a"); (Stderr, "x");
                         (Stdout, "b"); (Stderr, "y")] None)
                     "default" None
                     sample_config sample_clientset sample_executor _
                     _ eq_refl)).
    split; reflexivity.
Defined.

(** C7.  When a config is resolved, a clientset is built and registering
    the scheme fails with [cause], [PodList] returns empty outputs and the
    error [error adding to scheme: cause]; the scheme registration was
    called once, and neither upgrade negotiation nor streaming took
    place. *)
Theorem PodList_scheme_failure
  (w : World) (ns : string) (stdin : option Reader)
  (cfg : Config) (cs : Clientset) (s : Scheme) (cause : error) :
  result (GetClusterClientConfig w) = Return (Some cfg, None) ->
  NewForConfig w (Some cfg) = (Some cs, None) ->
  AddToScheme w [] = (s, Some cause) ->
  result (PodList w ns stdin)
  = Return ("", "",
            Some (errorString ("error adding to scheme: " +:+ Error cause)))
  /\ strings_Contains ("error adding to scheme: " +:+ Error cause)
       (Error cause) = true
  /\ count is_AddToScheme (trace (PodList w ns stdin)) = 1
  /\ count is_NewSPDYExecutor (trace (PodList w ns stdin)) = 0
  /\ count is_StreamWithContext (trace (PodList w ns stdin)) = 0.
Proof.
  intros Hcfg Hcs Hs. unfold result, trace.
  rewrite (PodList_scheme_error w ns stdin cfg cs s cause) by assumption.
  cbn [fst snd].
  split; [reflexivity|]. split; [apply Contains_suffix|].
  rewrite !count_app.
  rewrite !(GetClusterClientConfig_quiet w) by reflexivity.
  repeat split.
Qed.

Lemma PodList_scheme_failure_witness :
  result (PodList
            (with_AddToScheme (in_cluster_world hello None)
               (Some (errorString "kind already registered")))
            "default" None)
  = Return ("", "",
            Some (errorString
                    "error adding to scheme: kind already registered")).
Proof.
  exact (proj1 (PodList_scheme_failure
                  (with_AddToScheme (in_cluster_world hello None)
                     (Some (errorString "kind already registered")))
                  "default" None sample_config sample_clientset []
                  (errorString "kind already registered")
                  eq_refl eq_refl eq_refl)).
Defined.

(** C8.  When the resolved config is nil, or a config is resolved and the
    clientset built from it is nil, [PodList] returns empty stdout and
    stderr with a non-nil error, and its trace holds no request
    construction, no upgrade negotiation and no streaming call.  When the
    nil value comes without an error of its own, the error returned is
    [nil config], respectively [nil clientset]. *)
Theorem PodList_nil_config_or_clientset
  (w : World) (ns : string) (stdin : option Reader) :
  (exists err, result (GetClusterClientConfig w) = Return (None, err)) \/
  (exists cfg err,
     result (GetClusterClientConfig w) = Return (Some cfg, None) /\
     result (GetClientsetFromClusterConfig w (Some cfg)) = Return (None, err))
  ->
  exists e : error,
    result (PodList w ns stdin) = Return ("", "", Some e) /\
    count is_Request (trace (PodList w ns stdin)) = 0 /\
    count is_network (trace (PodList w ns stdin)) = 0 /\
    (result (GetClusterClientConfig w) = Return (None, None) ->
     e = errorString "nil config") /\
    (forall cfg,
       result (GetClusterClientConfig w) = Return (Some cfg, None) ->
       result (GetClientsetFromClusterConfig w (Some cfg))
       = Return (None, None) ->
       e = errorString "nil clientset").
Proof.
  intros [[[e|] Hcfg] | (cfg & err & Hcfg & Hcs)].
  - exists e. unfold result at 1, trace.
    rewrite (PodList_resolution_error w ns stdin None e Hcfg).
    cbn [fst snd]. rewrite !count_app.
    rewrite !(GetClusterClientConfig_quiet w) by reflexivity.
    repeat split; intros; congruence.
  - exists (errorString "nil config"). unfold result at 1, trace.
    rewrite (PodList_nil_config w ns stdin Hcfg).
    cbn [fst snd]. rewrite !count_app.
    rewrite !(GetClusterClientConfig_quiet w) by reflexivity.
    repeat split; intros; congruence.
  - unfold result in Hcs. rewrite GetClientsetFromClusterConfig_run in Hcs.
    destruct (NewForConfig w (Some cfg)) as [cs [e|]] eqn:Hnew.
    + eexists. unfold result at 1, trace.
      rewrite (PodList_clientset_error w ns stdin cfg cs e Hcfg Hnew).
      cbn [fst snd]. rewrite !count_app.
      rewrite !(GetClusterClientConfig_quiet w) by reflexivity.
      repeat split; [congruence|].
      intros cfg' Hcfg' Hnil. unfold result in Hnil.
      rewrite GetClientsetFromClusterConfig_run in Hnil.
      assert (cfg' = cfg) as -> by congruence.
      rewrite Hnew in Hnil. discriminate Hnil.
    + cbn [fst] in Hcs. assert (cs = None) as -> by congruence.
      exists (errorString "nil clientset"). unfold result at 1, trace.
      rewrite (PodList_nil_clientset w ns stdin cfg Hcfg Hnew).
      cbn [fst snd]. rewrite !count_app.
      rewrite !(GetClusterClientConfig_quiet w) by reflexivity.
      repeat split; congruence.
Qed.

Lemma PodList_nil_config_or_clientset_witness :
  (exists e,
     result (PodList (with_InClusterConfig (in_cluster_world hello None)
                        (None, None)) "default" None)
     = Return ("", "", Some e) /\ e = errorString "nil config") /\
  (exists e,
     result (PodList (with_NewForConfig (in_cluster_world hello None)
                        (None, None)) "default" None)
     = Return ("", "", Some e) /\ e = errorString "nil clientset").
Proof.
  split.
  - destruct (PodList_nil_config_or_clientset
                (with_InClusterConfig (in_cluster_world hello None)
                   (None, None)) "default" None
                (or_introl (ex_intro _ None eq_refl)))
      as (e & Hres & _ & _ & Hnil & _).
    exists e. exact (conj Hres (Hnil eq_refl)).
  - destruct (PodList_nil_config_or_clientset
                (with_NewForConfig (in_cluster_world hello None)
                   (None, None)) "default" None
                (or_intror
                   (ex_intro _ sample_config
                      (ex_intro _ None (conj eq_refl eq_refl)))))
      as (e & Hres & _ & _ & _ & Hnil).
    exists e. exact (conj Hres (Hnil sample_config eq_refl eq_refl)).
Defined.

(** C9.  When credential resolution fails with [e], [GetRESTClient]
    returns, next to [e], a client that is not nil: the zero
    [rest.RESTClient], built without calling [rest.RESTClientFor].
    [GetClusterClientset] returns a nil clientset next to the same error,
    and [GetClientsetFromClusterConfig] returns a nil clientset whenever
    [kubernetes.NewForConfig] fails. *)
Theorem GetRESTClient_failure_returns_empty_client
  (w : World) (config : option Config) (e : error) :
  result (GetClusterClientConfig w) = Return (config, Some e) ->
  result (GetRESTClient w) = Return (Some RESTClient_zero, Some e) /\
  count is_RESTClientFor (trace (GetRESTClient w)) = 0 /\
  base RESTClient_zero = None /\
  result (GetClusterClientset w) = Return (None, Some e) /\
  (forall (w' : World) (cfg : option Config)
          (cs : option Clientset) (e' : error),
     NewForConfig w' cfg = (cs, Some e') ->
     exists e'' : error,
       result (GetClientsetFromClusterConfig w' cfg)
       = Return (None, Some e'')).
Proof.
  intros Hcfg.
  assert (Hrest : run (GetRESTClient w)
                  = (Return (Some RESTClient_zero, Some e),
                     trace (GetClusterClientConfig w))).
  { unfold run, GetRESTClient. unfold mbind, M_bind, mret, M_ret.
    rewrite run_eta, Hcfg. reflexivity. }
  assert (Hset : result (GetClusterClientset w) = Return (None, Some e)).
  { unfold result, run, GetClusterClientset.
    unfold mbind, M_bind, mret, M_ret.
    rewrite run_eta, Hcfg. reflexivity. }
  unfold result at 1, trace. rewrite Hrest. cbn [fst snd].
  split; [reflexivity|].
  split; [by apply GetClusterClientConfig_quiet|].
  split; [reflexivity|]. split; [exact Hset|].
  intros w' cfg cs e' Hnew. eexists. unfold result.
  rewrite GetClientsetFromClusterConfig_run, Hnew. reflexivity.
Qed.

Lemma GetRESTClient_failure_returns_empty_client_witness :
  result (GetRESTClient (outside_world {[ "HOME" := "/root" ]}))
  = Return (Some RESTClient_zero,
            Some (errorString (both_failed_text not_in_cluster no_kubeconfig)))
  /\ result (GetClusterClientset (outside_world {[ "HOME" := "/root" ]}))
  = Return (None,
            Some (errorString (both_failed_text not_in_cluster no_kubeconfig))).
Proof.
  destruct (GetRESTClient_failure_returns_empty_client
              (outside_world {[ "HOME" := "/root" ]}) None
              (errorString (both_failed_text not_in_cluster no_kubeconfig))
              eq_refl)
    as (Hrest & _ & _ & Hset & _).
  exact (conj Hrest Hset).
Defined.

(** C2.  In a world where everything up to request construction succeeds
    and [NewSPDYExecutor] fails with [tls: handshake failure], [PodList]
    returns the error [error while creating Executor: <nil>]: the text of
    the cause is absent from it, and the same text is returned whatever the
    cause is. *)
Theorem PodList_executor_failure_drops_cause :
  NewSPDYExecutor handshake_world (Some sample_config) "GET"
    (RequestURL handshake_world (pods_request sample_clientset "default"))
  = (None, Some handshake_failure) /\
  result (PodList handshake_world "default" None)
  = Return ("", "",
            Some (errorString "error while creating Executor: <nil>")) /\
  strings_Contains "error while creating Executor: <nil>"
    (Error handshake_failure) = false /\
  (forall cause : error,
     result (PodList
               (with_NewSPDYExecutor (in_cluster_world hello None)
                  (None, Some cause)) "default" None)
     = Return ("", "",
               Some (errorString "error while creating Executor: <nil>"))).
Proof.
  split; [reflexivity|].
  assert (Hany : forall cause : error,
    result (PodList
              (with_NewSPDYExecutor (in_cluster_world hello None)
                 (None, Some cause)) "default" None)
    = Return ("", "",
              Some (errorString "error while creating Executor: <nil>"))).
  { intros cause. unfold result.
    by rewrite (PodList_executor_error _ "default" None sample_config
                  sample_clientset ["v1"] None cause). }
  split; [apply Hany|]. split; [reflexivity | exact Hany].
Qed.

(** ** Cancellation *)

Ltac unfold_PodList :=
  unfold result, trace, run, PodList, GetClientsetFromClusterConfig,
    GetClusterClientConfig, rest_InClusterConfig, os_Getenv,
    clientcmd_BuildConfigFromFlags, kubernetes_NewForConfig,
    new_Request, core_v1_AddToScheme, remotecommand_NewSPDYExecutor,
    exec_StreamWithContext, Info, emit, panic;
  unfold mbind, M_bind, mret, M_ret.

Ltac is_answer x :=
  lazymatch x with
  | InClusterConfig _ => idtac
  | BuildConfigFromFlags _ _ _ => idtac
  | NewForConfig _ _ => idtac
  | AddToScheme _ _ => idtac
  | NewSPDYExecutor _ _ _ _ => idtac
  | StreamWithContext _ _ _ _ _ => idtac
  | foldl deliver _ _ => idtac
  | _ => is_var x
  end.

(** Case analysis on the next answer of a collaborator the goal branches
    on. *)
Ltac split_on_answer :=
  match goal with
  | |- context [match ?x with _ => _ end] =>
      is_answer x; destruct x; cbn -[fmt_Errorf filepath_Join foldl]
  end.

Ltac sync H :=
  repeat first
    [ rewrite <- (same_environ _ _ H)
    | rewrite <- (same_InClusterConfig _ _ H)
    | rewrite <- (same_BuildConfigFromFlags _ _ H)
    | rewrite <- (same_NewForConfig _ _ H)
    | rewrite <- (same_AddToScheme _ _ H)
    | rewrite <- (same_RequestURL _ _ H)
    | rewrite <- (same_NewSPDYExecutor _ _ H)
    | rewrite <- (same_Background_stream _ _ H) ].

(** Whatever the collaborators answer, a streaming call of [PodList] is made
    under [context.Background()]. *)
Lemma PodList_streams_only_under_Background
  (w : World) (ns : string) (stdin : option Reader) :
  forallb (streams_under Background) (trace (PodList w ns stdin)) = true.
Proof.
  unfold_PodList. cbn -[fmt_Errorf filepath_Join foldl].
  repeat split_on_answer; reflexivity.
Qed.

(** [PodList] does not observe how a stream behaves under any other
    context. *)
Lemma PodList_same_but_cancellable_streams
  (w w' : World) (ns : string) (stdin : option Reader) :
  same_but_cancellable_streams w w' ->
  run (PodList w' ns stdin) = run (PodList w ns stdin).
Proof.
  intros H. unfold_PodList. cbn -[fmt_Errorf filepath_Join foldl].
  repeat (sync H; try reflexivity; split_on_answer).
  all: sync H; try reflexivity.
Qed.

(** C1, as stated, fails.  A caller holds a cancellation signal that has
    fired, and the transport would end a stream started under that signal
    with [context.Canceled]; the call nevertheless enters streaming, under
    [context.Background()], and returns the remote output with a nil error.
    So it is not the case that every call made while the caller's signal has
    fired returns an error that is not a stream error. *)
Lemma PodList_ignores_fired_signal :
  Context_Err fired_signal = Some context_Canceled /\
  StreamWithContext (in_cluster_world hello None) sample_executor
    fired_signal None false = ([], Some context_Canceled) /\
  result (PodList (in_cluster_world hello None) "default" None)
  = Return ("hello" +:+ nl, "", None) /\
  count is_StreamWithContext
    (trace (PodList (in_cluster_world hello None) "default" None)) = 1 /\
  ~ (forall (w : World) (ns : string) (stdin : option Reader)
            (signal : Context),
       Context_Err signal <> None ->
       exists e : error,
         result (PodList w ns stdin) = Return ("", "", Some e) /\
         is_StreamError e = false).
Proof.
  split; [reflexivity|]. split; [reflexivity|].
  split; [reflexivity|]. split; [reflexivity|].
  intros Hclaim.
  destruct (Hclaim (in_cluster_world hello None) "default" None fired_signal)
    as (e & Hres & _); [discriminate|].
  discriminate Hres.
Qed.

(** C1, amended.  [PodList] takes no cancellation signal.  Every streaming
    call it makes runs under [context.Background()], whose [Err] is always
    nil, so its result and trace are the same in any two worlds that differ
    only in how streams behave under other contexts.  An error that ends the
    streaming phase, a cancellation cause included, comes back with empty
    outputs as [error in Stream: cause], which is a stream error. *)
Theorem PodList_streams_under_Background
  (w : World) (ns : string) (stdin : option Reader) :
  forallb (streams_under Background) (trace (PodList w ns stdin)) = true /\
  Context_Err Background = None /\
  (forall w' : World,
     same_but_cancellable_streams w w' ->
     run (PodList w' ns stdin) = run (PodList w ns stdin)) /\
  (forall (cfg : Config) (cs : Clientset) (ex : Executor)
          (frames : list frame) (cause : error),
     stream_ready w ns cfg cs ex ->
     StreamWithContext w ex Background stdin false = (frames, Some cause) ->
     exists e : error,
       result (PodList w ns stdin) = Return ("", "", Some e) /\
       Error e = "error in Stream: " +:+ Error cause /\
       is_StreamError e = true).
Proof.
  split; [apply PodList_streams_only_under_Background|].
  split; [reflexivity|].
  split; [intros w'; apply PodList_same_but_cancellable_streams|].
  intros cfg cs ex frames cause [Hcfg Hcs Hs Hex] Hstream.
  destruct (AddToScheme w []) as [s serr] eqn:Hscheme.
  cbn [snd] in Hs. subst serr.
  exists (errorString ("error in Stream: " +:+ Error cause)).
  unfold result.
  rewrite (PodList_streamed w ns stdin cfg cs s ex frames (Some cause))
    by assumption.
  split; [reflexivity|]. split; [reflexivity | apply prefix_app].
Qed.

Lemma PodList_streams_under_Background_witness :
  run (PodList derived_streams_world "default" None)
  = run (PodList (in_cluster_world [] (Some context_Canceled)) "default" None)
  /\ exists e : error,
       result (PodList (in_cluster_world [] (Some context_Canceled))
                 "default" None)
       = Return ("", "", Some e) /\
       Error e = "error in Stream: context canceled" /\
       is_StreamError e = true.
Proof.
  destruct (PodList_streams_under_Background
              (in_cluster_world [] (Some context_Canceled)) "default" None)
    as (_ & _ & Hsame & Hstream).
  split.
  - apply Hsame. split; reflexivity.
  - apply (Hstream sample_config sample_clientset sample_executor []
             context_Canceled); [split; reflexivity | reflexivity].
Defined.

(** ** Further properties of credential resolution *)

Lemma GetClusterClientConfig_error_shape
  (w : World) (config : option Config) (e : error) :
  result (GetClusterClientConfig w) = Return (config, Some e) ->
  config = None /\
  exists c1 e1 c2 e2,
    InClusterConfig w = (c1, Some e1) /\
    BuildConfigFromFlags w "" (kubeconfig_path w) = (c2, Some e2) /\
    e = errorString (both_failed_text e1 e2).
Proof.
  unfold result. rewrite GetClusterClientConfig_run.
  destruct (InClusterConfig w) as [c1 [e1|]]; [|discriminate].
  destruct (BuildConfigFromFlags w "" (kubeconfig_path w)) as [c2 [e2|]];
    [|discriminate].
  cbn [fst]. intros [= <- <-]. split; [reflexivity|].
  by exists c1, e1, c2, e2.
Qed.

Lemma GetClusterClientConfig_trace_cases (w : World) :
  trace (GetClusterClientConfig w) = [CallInClusterConfig] \/
  trace (GetClusterClientConfig w) = fallback_trace w.
Proof.
  unfold trace. rewrite GetClusterClientConfig_run.
  destruct (InClusterConfig w) as [c1 [e1|]]; [|by left].
  by destruct (BuildConfigFromFlags w "" (kubeconfig_path w)) as [c2 [e2|]];
    right.
Qed.

(** X1.  When in-cluster discovery fails and the kubeconfig file loads,
    [GetClusterClientConfig] returns the file's config with a nil error:
    the in-cluster error, and any config that came with it, are dropped.
    The file is looked up once, with an empty master URL. *)
Theorem GetClusterClientConfig_fallback_success
  (w : World) (c1 config : option Config) (e1 : error) :
  InClusterConfig w = (c1, Some e1) ->
  BuildConfigFromFlags w "" (kubeconfig_path w) = (config, None) ->
  result (GetClusterClientConfig w) = Return (config, None) /\
  trace (GetClusterClientConfig w)
  = [CallInClusterConfig; CallGetenv "HOME";
     CallBuildConfigFromFlags "" (kubeconfig_path w)].
Proof.
  intros Hin Hfile. unfold result, trace.
  rewrite GetClusterClientConfig_run, Hin, Hfile. by split.
Qed.

Lemma GetClusterClientConfig_fallback_success_witness :
  result (GetClusterClientConfig (kubeconfig_world {[ "HOME" := "/root" ]}))
  = Return (Some sample_config, None) /\
  trace (GetClusterClientConfig (kubeconfig_world {[ "HOME" := "/root" ]}))
  = [CallInClusterConfig; CallGetenv "HOME";
     CallBuildConfigFromFlags "" "/root/.kube/config"].
Proof.
  exact (GetClusterClientConfig_fallback_success
           (kubeconfig_world {[ "HOME" := "/root" ]}) None (Some sample_config)
           not_in_cluster eq_refl eq_refl).
Defined.

(** X2.  [GetClusterClientConfig] returns an error exactly when both
    discovery methods returned one, and a config never comes together with
    an error. *)
Theorem GetClusterClientConfig_error_iff (w : World) :
  ((exists config e,
      result (GetClusterClientConfig w) = Return (config, Some e))
   <-> (InClusterConfig w).2 <> None /\
       (BuildConfigFromFlags w "" (kubeconfig_path w)).2 <> None) /\
  (forall config e,
     result (GetClusterClientConfig w) = Return (config, Some e) ->
     config = None).
Proof.
  split; [split|].
  - intros (config & e & Hres).
    destruct (GetClusterClientConfig_error_shape w config e Hres)
      as (_ & c1 & e1 & c2 & e2 & -> & -> & _).
    by split.
  - intros [Hin Hfile]. unfold result. rewrite GetClusterClientConfig_run.
    destruct (InClusterConfig w) as [c1 [e1|]]; [|by destruct Hin].
    destruct (BuildConfigFromFlags w "" (kubeconfig_path w)) as [c2 [e2|]];
      [|by destruct Hfile].
    by eexists _, _.
  - intros config e Hres.
    by destruct (GetClusterClientConfig_error_shape w config e Hres).
Qed.

Lemma GetClusterClientConfig_error_iff_witness :
  exists config e,
    result (GetClusterClientConfig (outside_world ∅)) = Return (config, Some e).
Proof.
  apply (proj2 (proj1 (GetClusterClientConfig_error_iff (outside_world ∅)))).
  by split.
Defined.

(** ** Further properties of the client factories *)

Lemma GetClientsetFromClusterConfig_from
  (w : World) (config : option Config) (tr : list event) :
  GetClientsetFromClusterConfig w config tr
  = (result (GetClientsetFromClusterConfig w config),
     (tr ++ [CallNewForConfig config])%list).
Proof.
  unfold result. rewrite GetClientsetFromClusterConfig_run.
  unfold GetClientsetFromClusterConfig, kubernetes_NewForConfig, emit.
  unfold mbind, M_bind, mret, M_ret.
  destruct (NewForConfig w config) as [clientset [e|]]; [|reflexivity].
  cbn -[fmt_Errorf]. by rewrite Errorf_clientset.
Qed.

(** X3.  [GetClientsetFromClusterConfig] calls [kubernetes.NewForConfig]
    once, with the config it was given.  When that fails with [cause], the
    result is a nil clientset, whatever clientset came with the error, and
    an error whose text is [failed creating clientset. Error: ] followed by
    the text of [cause]. *)
Theorem GetClientsetFromClusterConfig_wraps_cause
  (w : World) (config : option Config) (cs : option Clientset)
  (cause : error) :
  NewForConfig w config = (cs, Some cause) ->
  result (GetClientsetFromClusterConfig w config)
  = Return (None,
            Some (errorString
                    ("failed creating clientset. Error: " +:+ Error cause)))
  /\ strings_Contains ("failed creating clientset. Error: " +:+ Error cause)
       (Error cause) = true
  /\ trace (GetClientsetFromClusterConfig w config)
     = [CallNewForConfig config].
Proof.
  intros Hnew. unfold result, trace.
  rewrite GetClientsetFromClusterConfig_run, Hnew.
  split; [reflexivity|]. split; [apply Contains_suffix | reflexivity].
Qed.

Lemma GetClientsetFromClusterConfig_wraps_cause_witness :
  result (GetClientsetFromClusterConfig
            (with_NewForConfig (in_cluster_world hello None)
               (Some sample_clientset, Some handshake_failure))
            (Some sample_config))
  = Return (None,
            Some (errorString
                    "failed creating clientset. Error: tls: handshake failure")).
Proof.
  exact (proj1 (GetClientsetFromClusterConfig_wraps_cause
                  (with_NewForConfig (in_cluster_world hello None)
                     (Some sample_clientset, Some handshake_failure))
                  (Some sample_config) (Some sample_clientset)
                  handshake_failure eq_refl)).
Defined.

(** X4.  When credential resolution returns a nil error,
    [GetClusterClientset] is [GetClientsetFromClusterConfig] applied to the
    resolved config: its result is that function's result, and
    [kubernetes.NewForConfig] is called once, after resolution.  The
    resolved config is not checked: a nil config with a nil error is handed
    to [NewForConfig] as it is. *)
Theorem GetClusterClientset_composes (w : World) (config : option Config) :
  result (GetClusterClientConfig w) = Return (config, None) ->
  result (GetClusterClientset w)
  = result (GetClientsetFromClusterConfig w config) /\
  trace (GetClusterClientset w)
  = (trace (GetClusterClientConfig w) ++ [CallNewForConfig config])%list.
Proof.
  intros Hcfg. unfold result at 1, trace at 1, run, GetClusterClientset.
  unfold mbind, M_bind, mret, M_ret.
  rewrite run_eta, Hcfg.
  by rewrite GetClientsetFromClusterConfig_from.
Qed.

Lemma GetClusterClientset_composes_witness :
  trace (GetClusterClientset
           (with_InClusterConfig (in_cluster_world hello None) (None, None)))
  = [CallInClusterConfig; CallNewForConfig None] /\
  result (GetClusterClientset
            (with_InClusterConfig (in_cluster_world hello None) (None, None)))
  = Return (Some sample_clientset, None).
Proof.
  destruct (GetClusterClientset_composes
              (with_InClusterConfig (in_cluster_world hello None) (None, None))
              None eq_refl) as [Hres Htr].
  exact (conj Htr Hres).
Defined.

(** X5.  When credential resolution fails, [GetClusterClientset] returns
    the resolution error unchanged and never calls
    [kubernetes.NewForConfig]. *)
Theorem GetClusterClientset_resolution_error
  (w : World) (config : option Config) (e : error) :
  result (GetClusterClientConfig w) = Return (config, Some e) ->
  result (GetClusterClientset w) = Return (None, Some e) /\
  trace (GetClusterClientset w) = trace (GetClusterClientConfig w) /\
  count is_NewForConfig (trace (GetClusterClientset w)) = 0.
Proof.
  intros Hcfg.
  assert (Hrun : run (GetClusterClientset w)
                 = (Return (None, Some e), trace (GetClusterClientConfig w))).
  { unfold run, GetClusterClientset. unfold mbind, M_bind, mret, M_ret.
    by rewrite run_eta, Hcfg. }
  unfold result, trace at 1 3. rewrite Hrun. cbn [fst snd].
  split; [reflexivity|]. split; [reflexivity|].
  by apply GetClusterClientConfig_quiet.
Qed.

Lemma GetClusterClientset_resolution_error_witness :
  result (GetClusterClientset (outside_world ∅))
  = Return (None,
            Some (errorString (both_failed_text not_in_cluster no_kubeconfig)))
  /\ count is_NewForConfig (trace (GetClusterClientset (outside_world ∅))) = 0.
Proof.
  destruct (GetClusterClientset_resolution_error (outside_world ∅) None
              (errorString (both_failed_text not_in_cluster no_kubeconfig))
              eq_refl) as (Hres & _ & Hcount).
  exact (conj Hres Hcount).
Defined.

(** X6.  When credential resolution returns a nil error, [GetRESTClient]
    returns what [rest.RESTClientFor] returns for the resolved config,
    client and error as they are (the error is not wrapped), after one call
    of [RESTClientFor]. *)
Theorem GetRESTClient_passes_through (w : World) (config : option Config) :
  result (GetClusterClientConfig w) = Return (config, None) ->
  result (GetRESTClient w) = Return (RESTClientFor w config) /\
  trace (GetRESTClient w)
  = (trace (GetClusterClientConfig w) ++ [CallRESTClientFor config])%list.
Proof.
  intros Hcfg. unfold result at 1, trace at 1, run, GetRESTClient.
  unfold mbind, M_bind, mret, M_ret, rest_RESTClientFor, emit.
  by rewrite run_eta, Hcfg.
Qed.

Lemma GetRESTClient_passes_through_witness :
  result (GetRESTClient
            (with_RESTClientFor (in_cluster_world hello None)
               (None, Some (errorString "host must be a URL"))))
  = Return (None, Some (errorString "host must be a URL")) /\
  trace (GetRESTClient
           (with_RESTClientFor (in_cluster_world hello None)
              (None, Some (errorString "host must be a URL"))))
  = [CallInClusterConfig; CallRESTClientFor (Some sample_config)].
Proof.
  exact (GetRESTClient_passes_through
           (with_RESTClientFor (in_cluster_world hello None)
              (None, Some (errorString "host must be a URL")))
           (Some sample_config) eq_refl).
Defined.

(** ** Further properties of [PodList] *)

(** Every call of [PodList] ends at one of its return sites, or panics at
    the call through a nil executor. *)
Lemma PodList_sites (w : World) (ns : string) (stdin : option Reader) :
  PodList_site w ns stdin
    (result (PodList w ns stdin)) (trace (PodList w ns stdin)).
Proof.
  unfold result at 1, trace at 1.
  destruct (GetClusterClientConfig_result w) as [[[cfg|] Hcfg] | [e Hcfg]].
  - destruct (NewForConfig w (Some cfg)) as [[cs|] [e|]] eqn:Hcs.
    + rewrite (PodList_clientset_error w ns stdin cfg _ e Hcfg Hcs).
      by eapply site_clientset_error.
    + destruct (AddToScheme w []) as [s [e|]] eqn:Hs.
      * rewrite (PodList_scheme_error w ns stdin cfg cs s e Hcfg Hcs Hs).
        by eapply site_scheme_error.
      * destruct (NewSPDYExecutor w (Some cfg) "GET"
                    (RequestURL w (pods_request cs ns)))
          as [[ex|] [e|]] eqn:Hex.
        -- rewrite (PodList_executor_error w ns stdin cfg cs s _ e
                      Hcfg Hcs Hs Hex).
           by eapply site_executor_error.
        -- destruct (StreamWithContext w ex Background stdin false)
             as [frames [e|]] eqn:Hstream.
           ++ rewrite (PodList_streamed w ns stdin cfg cs s ex frames
                         (Some e) Hcfg Hcs Hs Hex Hstream).
              by eapply site_stream_error.
           ++ rewrite (PodList_streamed w ns stdin cfg cs s ex frames
                         None Hcfg Hcs Hs Hex Hstream).
              by eapply site_completed.
        -- rewrite (PodList_executor_error w ns stdin cfg cs s _ e
                      Hcfg Hcs Hs Hex).
           by eapply site_executor_error.
        -- rewrite (PodList_nil_executor w ns stdin cfg cs s
                      Hcfg Hcs Hs Hex).
           by eapply site_nil_executor.
    + rewrite (PodList_clientset_error w ns stdin cfg _ e Hcfg Hcs).
      by eapply site_clientset_error.
    + rewrite (PodList_nil_clientset w ns stdin cfg Hcfg Hcs).
      by eapply site_nil_clientset.
  - rewrite (PodList_nil_config w ns stdin Hcfg). by apply site_nil_config.
  - rewrite (PodList_resolution_error w ns stdin None e Hcfg).
    by eapply site_resolution_error.
Qed.

(** Counting over the trace of a call that got past resolution. *)
Lemma count_after_resolution
  (w : World) (p : event -> bool) (rest : list event) :
  p CallInClusterConfig = false ->
  p (CallGetenv "HOME") = false ->
  p (CallBuildConfigFromFlags "" (kubeconfig_path w)) = false ->
  count p (trace (GetClusterClientConfig w) ++ rest)%list = count p rest.
Proof.
  intros H1 H2 H3. rewrite count_app.
  by rewrite (GetClusterClientConfig_quiet w p H1 H2 H3).
Qed.

(** X7.  Whenever [PodList] returns an error, both strings it returns are
    empty. *)
Theorem PodList_error_means_empty_output
  (w : World) (ns : string) (stdin : option Reader)
  (out err : string) (e : error) :
  result (PodList w ns stdin) = Return (out, err, Some e) ->
  out = "" /\ err = "".
Proof.
  pose proof (PodList_sites w ns stdin) as Hsite.
  destruct Hsite; intros [= <- <- _] || intros [=]; by split.
Qed.

Lemma PodList_error_means_empty_output_witness :
  exists out err e,
    result (PodList
              (in_cluster_world [(Stdout, "hel"); (Stderr, "warn")]
                 (Some connection_reset))
              "default" None)
    = Return (out, err, Some e) /\ out = "" /\ err = "".
Proof.
  eexists _, _, _. split; [reflexivity|].
  apply (PodList_error_means_empty_output
           (in_cluster_world [(Stdout, "hel"); (Stderr, "warn")]
              (Some connection_reset))
           "default" None "" ""
           (errorString "error in Stream: read tcp: connection reset by peer")).
  reflexivity.
Defined.

(** X8.  [PodList] returns a nil error only after a clean session: a
    config was resolved, a clientset built, the scheme registered, the
    executor created, and the one streaming call ended without error; the
    two strings returned are the bytes that session delivered on stdout and
    on stderr. *)
Theorem PodList_success_means_clean_session
  (w : World) (ns : string) (stdin : option Reader) (out err : string) :
  result (PodList w ns stdin) = Return (out, err, None) ->
  exists cfg cs ex frames,
    stream_ready w ns cfg cs ex /\
    StreamWithContext w ex Background stdin false = (frames, None) /\
    out = emitted Stdout frames /\ err = emitted Stderr frames /\
    count is_StreamWithContext (trace (PodList w ns stdin)) = 1.
Proof.
  pose proof (PodList_sites w ns stdin) as Hsite.
  destruct Hsite as [| | | | | | | |cfg cs s ex frames Hcfg Hcs Hs Hex Hstream];
    try discriminate.
  intros [= <- <-]. exists cfg, cs, ex, frames.
  split; [split; try assumption; by rewrite Hs|].
  split; [assumption|]. split; [reflexivity|]. split; [reflexivity|].
  by rewrite count_after_resolution.
Qed.

Lemma PodList_success_means_clean_session_witness :
  exists cfg cs ex frames,
    stream_ready (kubeconfig_world {[ "HOME" := "/root" ]}) "kube-system"
      cfg cs ex /\
    StreamWithContext (kubeconfig_world {[ "HOME" := "/root" ]}) ex
      Background None false = (frames, None) /\
    "hello" +:+ nl = emitted Stdout frames /\ "" = emitted Stderr frames /\
    count is_StreamWithContext
      (trace (PodList (kubeconfig_world {[ "HOME" := "/root" ]})
                "kube-system" None)) = 1.
Proof.
  apply (PodList_success_means_clean_session
           (kubeconfig_world {[ "HOME" := "/root" ]}) "kube-system" None).
  reflexivity.
Defined.

(** X9.  [PodList] retries nothing: in any call, each collaborator is
    called at most once, and [rest.RESTClientFor] is not called at all. *)
Theorem PodList_calls_at_most_once
  (w : World) (ns : string) (stdin : option Reader) :
  let tr := trace (PodList w ns stdin) in
  (count is_InClusterConfig tr <= 1)%nat /\
  (count is_Getenv tr <= 1)%nat /\
  (count is_BuildConfigFromFlags tr <= 1)%nat /\
  (count is_NewForConfig tr <= 1)%nat /\
  (count is_Request tr <= 1)%nat /\
  (count is_AddToScheme tr <= 1)%nat /\
  (count is_NewSPDYExecutor tr <= 1)%nat /\
  (count is_StreamWithContext tr <= 1)%nat /\
  count is_RESTClientFor tr = 0.
Proof.
  cbv zeta. pose proof (PodList_sites w ns stdin) as Hsite.
  destruct Hsite;
    destruct (GetClusterClientConfig_trace_cases w) as [-> | ->];
    unfold fallback_trace, negotiation_trace;
    cbn -[kubeconfig_path RequestURL]; repeat split; lia.
Qed.

(** X10.  [PodList] panics exactly when every step up to scheme
    registration succeeds and [NewSPDYExecutor] returns a nil executor with
    a nil error: the executor, unlike the config and the clientset, is used
    without a nil check. *)
Theorem PodList_panics_iff_nil_executor
  (w : World) (ns : string) (stdin : option Reader) :
  (exists reason, result (PodList w ns stdin) = Panic reason) <->
  (exists cfg cs,
     result (GetClusterClientConfig w) = Return (Some cfg, None) /\
     NewForConfig w (Some cfg) = (Some cs, None) /\
     (AddToScheme w []).2 = None /\
     NewSPDYExecutor w (Some cfg) "GET" (RequestURL w (pods_request cs ns))
     = (None, None)).
Proof.
  split.
  - intros [reason Hres]. revert Hres.
    pose proof (PodList_sites w ns stdin) as Hsite.
    destruct Hsite as [| | | | | |cfg cs s Hcfg Hcs Hs Hex| |];
      try discriminate.
    intros _. exists cfg, cs. by rewrite Hs.
  - intros (cfg & cs & Hcfg & Hcs & Hs & Hex).
    destruct (AddToScheme w []) as [s serr] eqn:Hscheme.
    cbn [snd] in Hs. subst serr.
    eexists. unfold result.
    by rewrite (PodList_nil_executor w ns stdin cfg cs s Hcfg Hcs Hscheme Hex).
Qed.

Lemma PodList_panics_iff_nil_executor_witness :
  exists reason,
    result (PodList
              (with_NewSPDYExecutor (in_cluster_world hello None) (None, None))
              "default" None)
    = Panic reason.
Proof.
  apply (proj2 (PodList_panics_iff_nil_executor
                  (with_NewSPDYExecutor (in_cluster_world hello None)
                     (None, None)) "default" None)).
  exists sample_config, sample_clientset. repeat split.
Defined.

(** X11.  Every call [PodList] makes has fixed arguments: the environment
    is read for HOME only; the request is a GET for the resource [pods] in
    the namespace given, which is used as it is, empty or not; the executor
    is created for the resolved config, the method GET and the URL of that
    request; the stream runs on the executor so created, under
    [context.Background()], with the caller's stdin and no TTY. *)
Theorem PodList_call_arguments
  (w : World) (ns : string) (stdin : option Reader) :
  Forall (PodList_call w ns stdin) (trace (PodList w ns stdin)).
Proof.
  assert (Hres : Forall (PodList_call w ns stdin)
                   (trace (GetClusterClientConfig w))).
  { destruct (GetClusterClientConfig_trace_cases w) as [-> | ->];
      repeat constructor. }
  pose proof (PodList_sites w ns stdin) as Hsite.
  destruct Hsite; unfold negotiation_trace;
    repeat (apply Forall_app; split; [assumption|]);
    repeat (apply Forall_cons; split); try apply Forall_nil;
    cbn [PodList_call]; repeat split; try done; eauto.
Qed.

(** X12.  The text of an error returned by [PodList] tells whether the
    session was entered: the error starts with [error in Stream: ] exactly
    when the streaming call was made. *)
Theorem PodList_stream_error_iff_streamed
  (w : World) (ns : string) (stdin : option Reader)
  (out err : string) (e : error) :
  result (PodList w ns stdin) = Return (out, err, Some e) ->
  (is_StreamError e = true <->
   count is_StreamWithContext (trace (PodList w ns stdin)) = 1).
Proof.
  pose proof (PodList_sites w ns stdin) as Hsite.
  destruct Hsite as [config e0 Hcfg| | | | | | | |];
    intros [= _ _ <-] || intros [=];
    unfold negotiation_trace;
    rewrite ?count_after_resolution by reflexivity.
  - destruct (GetClusterClientConfig_error_shape w config e0 Hcfg)
      as (_ & c1 & e1 & c2 & e2 & _ & _ & ->).
    split; intros [=].
  - split; intros [=].
  - split; intros [=].
  - split; intros [=].
  - split; intros [=].
  - split; intros [=].
  - split; [reflexivity | intros _; apply prefix_app].
Qed.

Lemma PodList_stream_error_iff_streamed_witness :
  is_StreamError
    (errorString "error in Stream: read tcp: connection reset by peer") = true
  <-> count is_StreamWithContext
        (trace (PodList (in_cluster_world [] (Some connection_reset))
                  "default" None)) = 1.
Proof.
  apply (PodList_stream_error_iff_streamed
           (in_cluster_world [] (Some connection_reset)) "default" None "" "").
  reflexivity.
Defined.

(** X13.  [PodList] adds nothing to the errors of its first two steps: the
    error of [GetClusterClientConfig], and the error of
    [GetClientsetFromClusterConfig], reach the caller as they are.  In the
    first case no clientset is built; in the second no request is. *)
Theorem PodList_passes_early_errors
  (w : World) (ns : string) (stdin : option Reader) :
  (forall config e,
     result (GetClusterClientConfig w) = Return (config, Some e) ->
     result (PodList w ns stdin) = Return ("", "", Some e) /\
     count is_NewForConfig (trace (PodList w ns stdin)) = 0) /\
  (forall cfg cs e,
     result (GetClusterClientConfig w) = Return (Some cfg, None) ->
     result (GetClientsetFromClusterConfig w (Some cfg))
     = Return (cs, Some e) ->
     result (PodList w ns stdin) = Return ("", "", Some e) /\
     count is_Request (trace (PodList w ns stdin)) = 0).
Proof.
  split.
  - intros config e Hcfg.
    destruct (GetClusterClientConfig_error_shape w config e Hcfg) as [-> _].
    unfold result at 1, trace.
    rewrite (PodList_resolution_error w ns stdin None e Hcfg). cbn [fst snd].
    split; [reflexivity|]. by rewrite count_after_resolution.
  - intros cfg cs e Hcfg Hcs. unfold result in Hcs.
    rewrite GetClientsetFromClusterConfig_run in Hcs.
    destruct (NewForConfig w (Some cfg)) as [cs' [e'|]] eqn:Hnew;
      [|discriminate Hcs].
    cbn [fst] in Hcs. injection Hcs as <- <-.
    unfold result at 1, trace.
    rewrite (PodList_clientset_error w ns stdin cfg cs' e' Hcfg Hnew).
    cbn [fst snd]. split; [reflexivity|]. by rewrite count_after_resolution.
Qed.

Lemma PodList_passes_early_errors_witness :
  result (PodList (outside_world ∅) "default" None)
  = Return ("", "",
            Some (errorString (both_failed_text not_in_cluster no_kubeconfig)))
  /\ result (PodList
               (with_NewForConfig (in_cluster_world hello None)
                  (None, Some handshake_failure)) "default" None)
  = Return ("", "",
            Some (errorString
                    "failed creating clientset. Error: tls: handshake failure")).
Proof.
  split.
  - exact (proj1 (proj1 (PodList_passes_early_errors
                           (outside_world ∅) "default" None)
                    None _ eq_refl)).
  - exact (proj1 (proj2 (PodList_passes_early_errors
                           (with_NewForConfig (in_cluster_world hello None)
                              (None, Some handshake_failure)) "default" None)
                    sample_config None _ eq_refl eq_refl)).
Defined.

(** ** The kubeconfig path *)

Lemma slash_free_app (s t : string) :
  slash_free s = true -> slash_free t = true -> slash_free (s +:+ t) = true.
Proof.
  intros Hs Ht. induction s as [|ch s IH]; [exact Ht|].
  rewrite string_app_cons. cbn [slash_free] in *.
  apply andb_true_iff in Hs as [Hch Hs].
  rewrite Hch. cbn. by apply IH.
Qed.

Lemma split_sep_slash_free (acc path : string) :
  slash_free acc = true ->
  Forall (λ s, slash_free s = true) (split_sep acc path).
Proof.
  revert acc. induction path as [|ch path IH]; intros acc Hacc.
  - by constructor.
  - cbn [split_sep]. destruct (Ascii.eqb ch "/") eqn:Hch.
    + constructor; [exact Hacc | by apply IH].
    + apply IH. apply slash_free_app; [exact Hacc|].
      cbn [slash_free]. by rewrite Hch.
Qed.

Lemma clean_step_kept (rooted : bool) (out : list string) (el : string) :
  slash_free el = true ->
  Forall kept_element out ->
  Forall kept_element (clean_step rooted out el).
Proof.
  intros Hel Hout. unfold clean_step.
  repeat case_decide; subst; try assumption.
  - destruct out as [|last out']; [by destruct rooted; repeat constructor|].
    case_decide.
    + constructor; [by split | assumption].
    + by inversion Hout.
  - constructor; [by split | assumption].
Qed.

Lemma foldl_clean_step_kept (rooted : bool) (els out : list string) :
  Forall (λ s, slash_free s = true) els ->
  Forall kept_element out ->
  Forall kept_element (foldl (clean_step rooted) out els).
Proof.
  revert out. induction els as [|el els IH]; intros out Hels Hout.
  - exact Hout.
  - inversion Hels; subst. cbn [foldl]. apply IH; [assumption|].
    by apply clean_step_kept.
Qed.

Lemma IsAbs_cons (ch : ascii) (s : string) :
  filepath_IsAbs (String ch s) = Ascii.eqb ch "/".
Proof.
  unfold filepath_IsAbs, strings_HasPrefix.
  change (String.prefix "/" (String ch s))
    with (if ascii_dec "/" ch then String.prefix "" s else false).
  destruct (ascii_dec "/" ch) as [<-|Hne].
  - by destruct s.
  - symmetry. apply Ascii.eqb_neq. congruence.
Qed.

Lemma strings_Join_kept_first (e : string) (es : list string) :
  kept_element e -> filepath_IsAbs (strings_Join (e :: es) "/") = false.
Proof.
  intros [Hne Hfree]. destruct e as [|ch e]; [done|].
  cbn [slash_free] in Hfree. apply andb_true_iff in Hfree as [Hch _].
  apply negb_true_iff in Hch.
  assert (Hjoin : exists s, strings_Join (String ch e :: es) "/" = String ch s).
  { destruct es; cbn [strings_Join]; [by eexists|].
    rewrite string_app_cons. by eexists. }
  destruct Hjoin as [s ->]. by rewrite IsAbs_cons.
Qed.

(** X14.  The kubeconfig path is absolute exactly when the value of HOME
    is: a HOME that does not start with a separator, the empty one
    included, gives a path relative to the working directory. *)
Theorem kubeconfig_path_abs_iff_HOME_abs (w : World) :
  filepath_IsAbs (kubeconfig_path w)
  = filepath_IsAbs (os_Getenv_in (environ w) "HOME").
Proof.
  unfold kubeconfig_path.
  destruct (os_Getenv_in (environ w) "HOME") as [|ch home]; [reflexivity|].
  cbn [filepath_Join]. case_decide; [discriminate|].
  cbn [strings_Join]. rewrite string_app_cons. cbn [filepath_Clean].
  destruct (Ascii.eqb ch "/") eqn:Hch.
  - by rewrite string_app_cons, !IsAbs_cons, Hch.
  - set (out := rev _).
    assert (Hout : Forall kept_element out).
    { apply Forall_rev, foldl_clean_step_kept; [|constructor].
      by apply split_sep_slash_free. }
    transitivity false.
    + destruct out as [|e es]; [reflexivity|].
      apply strings_Join_kept_first. by inversion Hout.
    + by rewrite IsAbs_cons.
Qed.

Lemma split_sep_app (acc p q : string) :
  split_sep acc (p +:+ String "/" q)
  = (split_sep acc p ++ split_sep "" q)%list.
Proof.
  revert acc. induction p as [|ch p IH]; intros acc.
  - reflexivity.
  - rewrite string_app_cons. cbn [split_sep].
    destruct (Ascii.eqb ch "/"); by rewrite IH.
Qed.

Lemma strings_Join_cons (e : string) (l : list string) (sep : string) :
  l <> [] -> strings_Join (e :: l) sep = e +:+ sep +:+ strings_Join l sep.
Proof. by destruct l. Qed.

Lemma strings_Join_snoc (l : list string) (a b : string) :
  exists dir,
    strings_Join (l ++ [a; b]) "/" = dir +:+ a +:+ "/" +:+ b /\
    (l = [] /\ dir = "" \/ exists d, dir = d +:+ "/").
Proof.
  induction l as [|e l (dir & IH & Hdir)].
  - exists "". split; [reflexivity | by left].
  - exists (e +:+ "/" +:+ dir). split.
    + change ((e :: l) ++ [a; b])%list with (e :: (l ++ [a; b]))%list.
      rewrite strings_Join_cons by (by destruct l).
      by rewrite IH, !string_app_assoc.
    + right. destruct Hdir as [[-> ->] | [d ->]].
      * exists e. by rewrite string_app_nil_r.
      * exists (e +:+ "/" +:+ d). by rewrite !string_app_assoc.
Qed.

(** X15.  Whatever the value of HOME, the kubeconfig path is
    [.kube/config] below some directory: it is [.kube/config] itself, or a
    prefix ending in a separator followed by [.kube/config]. *)
Theorem kubeconfig_path_tail (w : World) :
  exists dir,
    kubeconfig_path w = dir +:+ ".kube/config" /\
    (dir = "" \/ exists d, dir = d +:+ "/").
Proof.
  unfold kubeconfig_path.
  destruct (os_Getenv_in (environ w) "HOME") as [|ch home].
  { exists "". split; [reflexivity | by left]. }
  cbn [filepath_Join]. case_decide; [discriminate|].
  cbn [strings_Join]. rewrite string_app_cons. cbn [filepath_Clean].
  change (String ch (home +:+ "/" +:+ ".kube" +:+ "/" +:+ "config"))
    with (String ch home +:+ String "/" ".kube/config").
  rewrite split_sep_app.
  change (split_sep "" ".kube/config") with [".kube"; "config"].
  rewrite foldl_app.
  set (out := foldl _ [] (split_sep "" (String ch home))).
  change (foldl (clean_step (Ascii.eqb ch "/")) out [".kube"; "config"])
    with ("config" :: ".kube" :: out).
  change (rev ("config" :: ".kube" :: out))
    with ((rev out ++ [".kube"]) ++ ["config"])%list.
  rewrite <- app_assoc. cbn [app].
  destruct (strings_Join_snoc (rev out) ".kube" "config")
    as (dir & Hjoin & Hdir).
  destruct (Ascii.eqb ch "/").
  - exists ("/" +:+ dir). rewrite Hjoin. split.
    + by rewrite !string_app_assoc.
    + right. destruct Hdir as [[_ ->] | [d ->]]; [by exists ""|].
      exists ("/" +:+ d). by rewrite string_app_assoc.
  - exists dir. split; [|by destruct Hdir as [[_ ->] | ?]; [left | right]].
    destruct (rev out ++ [".kube"; "config"])%list eqn:Hl.
    + by destruct (rev out).
    + by rewrite Hjoin.
Qed.
